(** * The ReAct agent runner of the GitHub PR reviewer example

    A shallow embedding of [agent_runner.py] (the reason / decide / act loop of
    [AgentRunnerService.run_agent]) and of [github_pr_tool.py]
    ([GitHubPRTool.execute]), and the properties of the loop that the
    specification states.

    What lies outside the repository is a parameter of the model.  The two
    oracle calls ([opper.call]), the tools and the HTTP requests of the
    GitHub tool are functions of a world state [W], so each may answer
    differently at every call, and may raise.  An exception is a subclass of
    [Exception], the kind the handlers of the code catch.

    Tracing ([span.update], [save_metric]) is kept as the record of what the
    run hands to the sink, with the object in place of the text
    [to_json_str] makes of it; the sink accepts every record.  Console
    output ([print], [logger]) and the static prompt texts are left out. *)

From Stdlib Require Import PrimFloat.
From Stdlib Require Import ZArith List String Ascii Bool Lia DecimalString.
From Stdlib Require Import DecimalPos DecimalZ.
Import ListNotations.
Open Scope string_scope.
Open Scope list_scope.
Open Scope Z_scope.

Notation "a +++ b" := (String.append a b) (at level 60, right associativity).

(** ** Python text *)

Module PyText.

(** [str(n)] of an [int]. *)
Definition str_int (z : Z) : string := NilZero.string_of_int (Z.to_int z).

(** [sep.join(parts)]. *)
Fixpoint join (sep : string) (parts : list string) : string :=
  match parts with
  | [] => ""
  | [x] => x
  | x :: rest => x +++ sep +++ join sep rest
  end.

Fixpoint has_char (c : ascii) (s : string) : bool :=
  match s with
  | EmptyString => false
  | String d s' => Ascii.eqb c d || has_char c s'
  end.

(** [sub in s]. *)
Fixpoint contains (sub s : string) : bool :=
  prefix sub s ||
  match s with
  | EmptyString => false
  | String _ s' => contains sub s'
  end.

Definition lower_char (c : ascii) : ascii :=
  let n := nat_of_ascii c in
  if (Nat.leb 65 n && Nat.leb n 90)%bool then ascii_of_nat (n + 32) else c.

(** [s.lower()], on the ASCII letters. *)
Fixpoint lower (s : string) : string :=
  match s with
  | EmptyString => EmptyString
  | String c s' => String (lower_char c) (lower s')
  end.

Definition squote : ascii := "'"%char.
Definition dquote : ascii := ascii_of_nat 34.
Definition backslash : ascii := "\"%char.

Definition hex_digit (n : nat) : ascii :=
  nth n (list_ascii_of_string "0123456789abcdef") "0"%char.

(** One character of [repr(s)], [q] being the quote chosen for the whole
    string.  Characters beyond ASCII are copied, as [repr] does for the
    printable ones. *)
Definition repr_char (q c : ascii) : string :=
  let n := nat_of_ascii c in
  if (Ascii.eqb c q || Ascii.eqb c backslash)%bool then String backslash (String c "")
  else if Nat.eqb n 9 then "\t"
  else if Nat.eqb n 10 then "\n"
  else if Nat.eqb n 13 then "\r"
  else if (Nat.ltb n 32 || Nat.eqb n 127)%bool
       then "\x" +++ String (hex_digit (n / 16)) (String (hex_digit (n mod 16)) "")
  else String c "".

Fixpoint repr_chars (q : ascii) (s : string) : string :=
  match s with
  | EmptyString => EmptyString
  | String c s' => repr_char q c +++ repr_chars q s'
  end.

(** [repr(s)] of a [str]: single quotes, unless the text has a single quote
    and no double quote. *)
Definition repr_str (s : string) : string :=
  let q := if (has_char squote s && negb (has_char dquote s))%bool then dquote else squote in
  String q (repr_chars q s +++ String q "").

End PyText.

(** ** Python values *)

(** The values that cross the controller: JSON-like data, and any other
    object through what the code can observe of it (its type name, its
    [repr] text and its truth value); [PModel] is an object with a
    [model_dump] method, with the mapping the method returns. *)
#[local] Set Warnings "-register-all".
Inductive PyVal : Type :=
| PNone
| PBool (b : bool)
| PInt (z : Z)
| PStr (s : string)
| PList (items : list PyVal)
| PDict (entries : list (string * PyVal))
| PObj (tyname repr : string) (truth : bool)
| PModel (tyname repr : string) (dump : list (string * PyVal)).

(** A [dict] with [str] keys, in insertion order. *)
Definition PyDict : Type := list (string * PyVal).

Module Dict.
Section WithValue.
Context {V : Type}.

(** [d.get(k)]. *)
Fixpoint get (d : list (string * V)) (k : string) : option V :=
  match d with
  | [] => None
  | (k', v) :: d' => if String.eqb k k' then Some v else get d' k
  end.

(** [k in d]. *)
Definition has (d : list (string * V)) (k : string) : bool :=
  match get d k with Some _ => true | None => false end.

(** [d[k] = v]: an existing key keeps its place. *)
Fixpoint set (d : list (string * V)) (k : string) (v : V) : list (string * V) :=
  match d with
  | [] => [(k, v)]
  | (k', v') :: d' => if String.eqb k k' then (k, v) :: d' else (k', v') :: set d' k v
  end.

(** [list(d.keys())]. *)
Definition keys (d : list (string * V)) : list string := map fst d.
End WithValue.
End Dict.

Module PyValue.
Import PyText.

(** [type(v).__name__]. *)
Definition type_name (v : PyVal) : string :=
  match v with
  | PNone => "NoneType"
  | PBool _ => "bool"
  | PInt _ => "int"
  | PStr _ => "str"
  | PList _ => "list"
  | PDict _ => "dict"
  | PObj t _ _ => t
  | PModel t _ _ => t
  end.

(** [bool(v)]. *)
Definition truthy (v : PyVal) : bool :=
  match v with
  | PNone => false
  | PBool b => b
  | PInt z => negb (Z.eqb z 0)
  | PStr s => negb (String.eqb s "")
  | PList l => match l with [] => false | _ => true end
  | PDict d => match d with [] => false | _ => true end
  | PObj _ _ t => t
  | PModel _ _ _ => true
  end.

(** [repr(v)]. *)
Fixpoint repr (v : PyVal) : string :=
  match v with
  | PNone => "None"
  | PBool true => "True"
  | PBool false => "False"
  | PInt z => str_int z
  | PStr s => repr_str s
  | PList l => "[" +++ join ", " (map repr l) +++ "]"
  | PDict d =>
      "{" +++ join ", " (map (fun kv => repr_str (fst kv) +++ ": " +++ repr (snd kv)) d) +++ "}"
  | PObj _ r _ => r
  | PModel _ r _ => r
  end.

(** [str(v)], also what an f-string puts for [{v}]. *)
Definition str (v : PyVal) : string :=
  match v with
  | PStr s => s
  | _ => repr v
  end.

(** [x or default]. *)
Definition or_else (x default : PyVal) : PyVal := if truthy x then x else default.

(** [d or {}] for an optional mapping. *)
Definition or_empty (d : option PyDict) : PyDict :=
  match d with
  | Some d' => d'
  | None => []
  end.

End PyValue.

(** ** Exceptions and results *)

(** What a call gives back: a value, or an exception. *)
Inductive Outcome (E A : Type) : Type :=
| Ok (a : A)
| Raised (e : E).
Arguments Ok {E A} a.
Arguments Raised {E A} e.

(** An exception a tool or an HTTP request raises, with the text [str(e)]
    gives: [aiohttp.ClientResponseError], which has a [status], or any
    other subclass of [Exception], by the name of its class. *)
Inductive PyExc : Type :=
| ClientResponseError (status : Z) (text : string)
| Exception (cls text : string).

Definition exc_str (e : PyExc) : string :=
  match e with
  | ClientResponseError _ text => text
  | Exception _ text => text
  end.

(** How an oracle call ([opper.call] with an [output_type]) fails: the
    response does not validate against the model ([model], field [loc] and
    pydantic's error type [kind]), or the call itself raises. *)
Inductive OracleError : Type :=
| ValidationError (model loc kind : string)
| CallError (e : PyExc).

(** ** The data model of [agent_runner.py] *)

(** [AgentReasoning]. *)
Record AgentReasoning : Type := {
  content : string;
  confidence : float
}.

(** The [ge=0.0, le=1.0] of a float [Field]: pydantic tests [v > le], then
    [v < ge], and names the bound that fails. *)
Definition Field_ge_le (ge le v : float) : Outcome string float :=
  if PrimFloat.ltb le v then Raised "less_than_equal"
  else if PrimFloat.ltb v ge then Raised "greater_than_equal"
  else Ok v.

(** [AgentReasoning.validate_confidence]. *)
Definition validate_confidence (v : float) : Outcome string float :=
  if (PrimFloat.ltb v 0 || PrimFloat.ltb 1 v)%bool
  then Raised "Confidence must be between 0.0 and 1.0"
  else Ok v.

(** Building an [AgentReasoning] from a [str] and a [float]: the field
    constraints, then the field validator, whose [ValueError] pydantic
    reports as a [value_error]. *)
Definition AgentReasoning_validate (content : string) (confidence : float)
  : Outcome OracleError AgentReasoning :=
  match Field_ge_le 0 1 confidence with
  | Raised kind => Raised (ValidationError "AgentReasoning" "confidence" kind)
  | Ok v =>
      match validate_confidence v with
      | Raised _ => Raised (ValidationError "AgentReasoning" "confidence" "value_error")
      | Ok v' => Ok {| content := content; confidence := v' |}
      end
  end.

(** [AgentAction]: the model puts no constraint on [action_type] beyond
    its being a [str]. *)
Record AgentAction : Type := {
  action_type : string;
  tool_name : option string;
  tool_params : option PyDict;
  output : option PyDict
}.

(** The [context] dictionary of a run; [last_observation] is absent until
    the first tool result. *)
Record Context : Type := {
  input : PyDict;
  thoughts : list PyVal;
  current_step : Z;
  intermediate_results : PyDict;
  last_observation : option string
}.

Definition set_current_step (c : Context) (n : Z) : Context :=
  {| input := input c; thoughts := thoughts c; current_step := n;
     intermediate_results := intermediate_results c;
     last_observation := last_observation c |}.

Definition set_last_observation (c : Context) (o : string) : Context :=
  {| input := input c; thoughts := thoughts c; current_step := current_step c;
     intermediate_results := intermediate_results c;
     last_observation := Some o |}.

Definition set_intermediate_result (c : Context) (k : string) (v : PyVal) : Context :=
  {| input := input c; thoughts := thoughts c; current_step := current_step c;
     intermediate_results := Dict.set (intermediate_results c) k v;
     last_observation := last_observation c |}.

(** ** The oracle *)

(** The [input] of the [agent_reasoning] call. *)
Record ReasoningInput : Type := {
  ri_agent_instructions : PyVal;
  ri_context : Context;
  ri_step_number : Z;
  ri_last_observation : option string
}.

(** The [input] of the [agent_action] call. *)
Record ActionInput : Type := {
  ai_reasoning : string;
  ai_reasoning_confidence : float;
  ai_context : Context;
  ai_available_tools : list string;
  ai_agent_instructions : PyVal;
  ai_step_number : Z
}.

(** The client [opper]: for each of the two calls, the service's answer to
    an input in a world, and the world after.  [opper.call] returns an
    instance of its [output_type], built from the response by the model's
    own validation, or raises.  So for [agent_reasoning] the answer here is
    the two fields of the response, a [str] and a [float], which
    [AgentReasoning_validate] then takes; for [agent_action] it is the
    [AgentAction], whose fields have no constraint to fail.  A response
    that does not even have these fields is a call that raises. *)
Record Opper (W : Type) : Type := {
  agent_reasoning : ReasoningInput -> W -> Outcome OracleError (string * float) * W;
  agent_action : ActionInput -> W -> Outcome OracleError AgentAction * W
}.
Arguments agent_reasoning {W} _ _ _.
Arguments agent_action {W} _ _ _.

(** A registered tool: [await tool(params)]. *)
Definition Tool (W : Type) : Type := PyDict -> W -> Outcome PyExc PyVal * W.

(** ** The records of a run *)

(** What happens while a cycle's span is open, in order: the updates of the
    two spans (with the object that is serialised), the metric, and the
    three kinds of call with the answer each got. *)
Inductive Event : Type :=
| CycleInput (context : Context)
| ReasoningCall (req : ReasoningInput) (reply : Outcome OracleError (string * float))
| Metric (dimension : string) (value : float)
| ActionCall (req : ActionInput) (reply : Outcome OracleError AgentAction)
| ToolCall (name : string) (params : PyDict) (reply : Outcome PyExc PyVal)
| CycleOutput (v : PyVal)
| RootOutput (v : PyDict).

(** The root span: its input, the cycles [react_cycle_n] with their events,
    and the output recorded after the loop. *)
Inductive Span : Type :=
| RootInput (v : PyDict)
| Cycle (n : Z) (events : list Event)
| RootOutputAfterLoop (v : PyDict).

(** How [run_agent] ends: a [return], or an exception that leaves it. *)
Inductive RunResult : Type :=
| Returned (d : PyDict)
| RaisedOut (e : OracleError).

(** ** The controller's monad *)

(** The two things a run changes: its [context] dictionary and the world
    behind the oracle and the tools. *)
Record Store (W : Type) : Type := {
  context : Context;
  world : W
}.
Arguments context {W} _.
Arguments world {W} _.

(** A statement of the cycle either goes on with a value or leaves
    [run_agent] (a [return], or an exception nothing catches). *)
Inductive Flow (A : Type) : Type :=
| Go (a : A)
| Leave (r : RunResult).
Arguments Go {A} a.
Arguments Leave {A} r.

Module RunM.
Section WithWorld.
Context {W : Type}.

Definition M (A : Type) : Type := Store W -> Flow A * list Event * Store W.

Definition ret {A} (a : A) : M A := fun st => (Go a, [], st).

Definition bind {A B} (m : M A) (k : A -> M B) : M B :=
  fun st =>
    match m st with
    | (Go a, evs, st') =>
        match k a st' with
        | (f, evs', st'') => (f, evs ++ evs', st'')
        end
    | (Leave r, evs, st') => (Leave r, evs, st')
    end.

Definition emit (e : Event) : M unit := fun st => (Go tt, [e], st).

(** [return d] from [run_agent]. *)
Definition return_ {A} (d : PyDict) : M A := fun st => (Leave (Returned d), [], st).

(** An exception with no handler around it. *)
Definition raise {A} (e : OracleError) : M A := fun st => (Leave (RaisedOut e), [], st).

Definition get_context : M Context := fun st => (Go (context st), [], st).

Definition update_context (f : Context -> Context) : M unit :=
  fun st => (Go tt, [], {| context := f (context st); world := world st |}).

(** A call that leaves the controller, with the event that records it. *)
Definition call {Q R} (f : Q -> W -> R * W) (record : Q -> R -> Event) (q : Q) : M R :=
  fun st =>
    match f q (world st) with
    | (r, w') => (Go r, [record q r], {| context := context st; world := w' |})
    end.
End WithWorld.
End RunM.
Import RunM.

Notation "x <- m ;; k" := (bind m (fun x => k))
  (at level 100, m at next level, right associativity).
Notation "m ;;; k" := (bind m (fun _ => k))
  (at level 100, right associativity).

(** ** [AgentRunnerService] *)

Record AgentRunnerService (W : Type) : Type := {
  tools : list (string * Tool W);
  max_steps : Z
}.
Arguments tools {W} _.
Arguments max_steps {W} _.

(** [__init__]. *)
Definition AgentRunnerService_init {W : Type} : AgentRunnerService W :=
  {| tools := []; max_steps := 15 |}.

(** [register_tools]: the mapping given replaces the registry. *)
Definition register_tools {W : Type} (self : AgentRunnerService W)
    (tls : list (string * Tool W)) : AgentRunnerService W :=
  {| tools := tls; max_steps := max_steps self |}.

(** What a run leaves: its result, the spans recorded, and the store at the
    moment it ended. *)
Record RunOutput (W : Type) : Type := {
  result : RunResult;
  trace : list Span;
  final : Store W
}.
Arguments result {W} _.
Arguments trace {W} _.
Arguments final {W} _.

(** The three error results of [run_agent]: an unknown tool (with
    [list(self.tools.keys())]), a tool that raised, and the step budget. *)
Definition tool_not_found_error (available_tools : list string) (name : string) : PyDict :=
  [("error", PStr ("Tool '" +++ name +++ "' not found. Available tools: "
                     +++ PyValue.repr (PList (map PStr available_tools))))].

Definition tool_execution_error (name : string) (e : PyExc) : PyDict :=
  [("error", PStr ("Error executing tool " +++ name +++ ": " +++ exc_str e))].

Definition max_steps_error (max_steps : Z) : PyDict :=
  [("error", PStr ("Reached maximum number of steps (" +++ PyText.str_int max_steps +++ ")"))].

Section Runner.
Context {W : Type}.
Variable opper : Opper W.
Variable self : AgentRunnerService W.

Import PyText PyValue.

(** [agent.get("instructions", "")]. *)
Definition agent_instructions (agent : PyDict) : PyVal :=
  match Dict.get agent "instructions" with
  | Some v => v
  | None => PStr ""
  end.

(** The [input] that [_react_reasoning] sends. *)
Definition reasoning_input (agent : PyDict) (context : Context) : ReasoningInput :=
  {| ri_agent_instructions := agent_instructions agent;
     ri_context := context;
     ri_step_number := current_step context;
     ri_last_observation := last_observation context |}.

(** The [AgentReasoning] that [opper.call] makes of an answer. *)
Definition reasoning_of (reply : Outcome OracleError (string * float))
  : Outcome OracleError AgentReasoning :=
  match reply with
  | Raised e => Raised e
  | Ok (text, score) => AgentReasoning_validate text score
  end.

(** [_react_reasoning]. *)
Definition react_reasoning (agent : PyDict) (context : Context) : M (W:=W) AgentReasoning :=
  reply <- call (agent_reasoning opper) ReasoningCall (reasoning_input agent context) ;;
  match reasoning_of reply with
  | Raised e => raise e
  | Ok reasoning => ret reasoning
  end.

(** The [input] that [_react_action_selection] sends. *)
Definition action_input (agent : PyDict) (context : Context) (reasoning : AgentReasoning)
  : ActionInput :=
  let available_tools := Dict.keys (tools self) in
  {| ai_reasoning := content reasoning;
     ai_reasoning_confidence := confidence reasoning;
     ai_context := context;
     ai_available_tools := available_tools;
     ai_agent_instructions := agent_instructions agent;
     ai_step_number := current_step context |}.

(** [_react_action_selection]. *)
Definition react_action_selection (agent : PyDict) (context : Context)
    (reasoning : AgentReasoning) : M (W:=W) AgentAction :=
  reply <- call (agent_action opper) ActionCall (action_input agent context reasoning) ;;
  match reply with
  | Raised e => raise e
  | Ok action => ret action
  end.

(** The test [action.action_type == "use_tool" and action.tool_name]. *)
Definition selected_tool (action : AgentAction) : option string :=
  if String.eqb (action_type action) "use_tool" then
    match tool_name action with
    | Some name => if String.eqb name "" then None else Some name
    | None => None
    end
  else None.

(** The loop over [tool_params.items()]: a value with [model_dump] is
    replaced by its dump. *)
Definition dump_models (tool_params : PyDict) : PyDict :=
  map (fun kv => match snd kv with
                 | PModel _ _ d => (fst kv, PDict d)
                 | _ => kv
                 end) tool_params.

(** The key [f"step_{current_step}"]. *)
Definition step_key (current_step : Z) : string := "step_" +++ str_int current_step.

(** The body of the [while] loop, inside the span [react_cycle_n]; the
    context already has the new step number. *)
Definition react_cycle (agent : PyDict) (current_step : Z) : M (W:=W) unit :=
  context <- get_context ;;
  emit (CycleInput context) ;;;
  (* Step 1: REASONING *)
  reasoning <- react_reasoning agent context ;;
  emit (Metric "reasoning_confidence" (confidence reasoning)) ;;;
  (* Step 2: ACTION SELECTION *)
  action <- react_action_selection agent context reasoning ;;
  if String.eqb (action_type action) "finish" then
    let final_output := or_empty (output action) in
    emit (CycleOutput (PDict final_output)) ;;;
    emit (RootOutput final_output) ;;;
    return_ final_output
  else
    (* Step 3: OBSERVATION *)
    match selected_tool action with
    | None => ret tt
    | Some tool_name =>
        let tool_params := or_empty (tool_params action) in
        match Dict.get (tools self) tool_name with
        | None =>
            let error_result := tool_not_found_error (Dict.keys (tools self)) tool_name in
            emit (RootOutput error_result) ;;;
            return_ error_result
        | Some tool =>
            let tool_params := dump_models tool_params in
            reply <- call tool (ToolCall tool_name) tool_params ;;
            match reply with
            | Raised e =>
                let error_result := tool_execution_error tool_name e in
                emit (RootOutput error_result) ;;;
                return_ error_result
            | Ok result =>
                let observation := str result in
                emit (CycleOutput result) ;;;
                update_context (fun c => set_last_observation c observation) ;;;
                update_context (fun c =>
                  set_intermediate_result c (step_key current_step) result)
            end
        end
    end.

(** The two assignments that open a cycle: [current_step += 1] was done,
    and [context["current_step"] = current_step]. *)
Definition enter_cycle (st : Store W) (current_step : Z) : Store W :=
  {| context := set_current_step (context st) current_step; world := world st |}.

(** The [while current_step < self.max_steps] loop and what follows it.
    [fuel] bounds the number of cycles; [None] means it ran out. *)
Fixpoint while_loop (agent : PyDict) (fuel : nat) (current_step : Z) (st : Store W)
  : option (RunResult * list Span * Store W) :=
  if current_step <? max_steps self then
    match fuel with
    | O => None
    | S fuel' =>
        let current_step := current_step + 1 in
        match react_cycle agent current_step (enter_cycle st current_step) with
        | (Go _, evs, st') =>
            match while_loop agent fuel' current_step st' with
            | Some (r, spans, st'') => Some (r, Cycle current_step evs :: spans, st'')
            | None => None
            end
        | (Leave r, evs, st') => Some (r, [Cycle current_step evs], st')
        end
    end
  else
    let error_result := max_steps_error (max_steps self) in
    Some (Returned error_result, [RootOutputAfterLoop error_result], st).

(** The store the loop starts in: the fresh [context], and the world. *)
Definition initial_store (input_data : PyDict) (w : W) : Store W :=
  {| context := {| input := input_data; thoughts := []; current_step := 0;
                   intermediate_results := []; last_observation := None |};
     world := w |}.

(** [run_agent]; [w] is the world the run starts in.  The [verbose] flag
    of the agent only prints. *)
Definition run_agent (agent_id : string) (agent : PyDict) (input_data : PyDict) (w : W)
  : option (RunOutput W) :=
  let agent_input := [("agent_id", PStr agent_id);
                      ("agent_instructions", agent_instructions agent);
                      ("input_data", PDict input_data)] in
  let current_step := 0 in
  match while_loop agent (Z.to_nat (max_steps self)) current_step
          (initial_store input_data w) with
  | Some (r, spans, st) =>
      Some {| result := r; trace := RootInput agent_input :: spans; final := st |}
  | None => None
  end.
End Runner.

(** ** [github_pr_tool.py] *)

(** The tool's own span updates are not part of the model. *)

Declare Scope tool_scope.

Module ToolM.
Section WithWorld.
Context {W : Type}.

(** A computation that reads and changes the world, and may raise. *)
Definition T (A : Type) : Type := W -> Outcome PyExc A * W.

Definition ret {A} (a : A) : T A := fun w => (Ok a, w).

Definition bind {A B} (m : T A) (k : A -> T B) : T B :=
  fun w =>
    match m w with
    | (Ok a, w') => k a w'
    | (Raised e, w') => (Raised e, w')
    end.

(** The result of an operation of the interpreter that touches no world. *)
Definition lift {A} (r : Outcome PyExc A) : T A := fun w => (r, w).
End WithWorld.

Notation "x <- m ;; k" := (bind m (fun x => k))
  (at level 100, m at next level, right associativity) : tool_scope.
End ToolM.

(** Operations of the interpreter that the tool applies to the JSON bodies
    it receives, with the exception each raises on a value of the wrong
    type (the texts are CPython 3.11's).  An object that is neither data nor
    a mapping has none of them. *)
Module PyOps.
Import PyText PyValue.

(** [v[key]] with a [str] key. *)
Definition subscript (v : PyVal) (key : string) : Outcome PyExc PyVal :=
  match v with
  | PDict d =>
      match Dict.get d key with
      | Some x => Ok x
      | None => Raised (Exception "KeyError" (repr_str key))
      end
  | PList _ => Raised (Exception "TypeError" "list indices must be integers or slices, not str")
  | PStr _ => Raised (Exception "TypeError" "string indices must be integers, not 'str'")
  | _ => Raised (Exception "TypeError" ("'" +++ type_name v +++ "' object is not subscriptable"))
  end.

(** [v.get(key, default)]. *)
Definition get_method (v : PyVal) (key : string) (default : PyVal) : Outcome PyExc PyVal :=
  match v with
  | PDict d =>
      Ok (match Dict.get d key with
          | Some x => x
          | None => default
          end)
  | _ => Raised (Exception "AttributeError"
                   ("'" +++ type_name v +++ "' object has no attribute 'get'"))
  end.

(** The items [for f in v] goes through. *)
Definition iterate (v : PyVal) : Outcome PyExc (list PyVal) :=
  match v with
  | PList l => Ok l
  | PDict d => Ok (map PStr (Dict.keys d))
  | PStr s => Ok (map (fun c => PStr (String c "")) (list_ascii_of_string s))
  | _ => Raised (Exception "TypeError" ("'" +++ type_name v +++ "' object is not iterable"))
  end.

(** [[f[key] for f in items]]: the first failure ends it. *)
Fixpoint subscript_each (items : list PyVal) (key : string) : Outcome PyExc (list PyVal) :=
  match items with
  | [] => Ok []
  | f :: rest =>
      match subscript f key with
      | Raised e => Raised e
      | Ok x =>
          match subscript_each rest key with
          | Raised e => Raised e
          | Ok xs => Ok (x :: xs)
          end
      end
  end.
End PyOps.

Module GitHub.
Import PyText PyValue PyOps.

(** [GitHubPRTool]: the attributes [__init__] sets. *)
Record GitHubPRTool : Type := {
  base_url : string;
  headers : list (string * string)
}.

(** [__init__]: the [Authorization] header is there when a token that is
    not empty was given. *)
Definition GitHubPRTool_init (github_token : option string) : GitHubPRTool :=
  let headers := [("Accept", "application/vnd.github.v3+json")] in
  {| base_url := "https://api.github.com";
     headers := match github_token with
                | Some token =>
                    if String.eqb token "" then headers
                    else Dict.set headers "Authorization" ("token " +++ token)
                | None => headers
                end |}.

(** A [session.get(url, headers=...)] with [raise_for_status], read with
    [response.json()] or [response.text()]: the body, or what was raised. *)
Record Http (W : Type) : Type := {
  get_json : string -> list (string * string) -> W -> Outcome PyExc PyVal * W;
  get_text : string -> list (string * string) -> W -> Outcome PyExc string * W
}.
Arguments get_json {W} _ _ _ _.
Arguments get_text {W} _ _ _ _.

Section Tool.
Context {W : Type}.
Variable self : GitHubPRTool.
Variable http : Http W.

Local Open Scope tool_scope.
Import ToolM.

Definition pull_url (owner repo pr_number : PyVal) : string :=
  base_url self +++ "/repos/" +++ str owner +++ "/" +++ str repo
    +++ "/pulls/" +++ str pr_number.

(** [_get_pr_info]. *)
Definition _get_pr_info (owner repo pr_number : PyVal) : T (W:=W) PyVal :=
  get_json http (pull_url owner repo pr_number) (headers self).

(** [_get_pr_files]. *)
Definition _get_pr_files (owner repo pr_number : PyVal) : T (W:=W) PyVal :=
  get_json http (pull_url owner repo pr_number +++ "/files") (headers self).

(** [_get_pr_diff]. *)
Definition _get_pr_diff (owner repo pr_number : PyVal) : T (W:=W) string :=
  let headers := Dict.set (headers self) "Accept" "application/vnd.github.v3.diff" in
  get_text http (pull_url owner repo pr_number) headers.

(** [_truncate_diff], with its default [max_length]. *)
Definition _truncate_diff (diff : string) : string :=
  let max_length := 50000 in
  if max_length <? Z.of_nat (String.length diff)
  then substring 0 (Z.to_nat max_length) diff
         +++ String (ascii_of_nat 10) "... (diff truncated for length)"
  else diff.

Definition required_params : list string := ["owner"; "repo"; "pr_number"].

Definition error_result (message : string) : PyVal :=
  PDict [("error", PStr message); ("status", PStr "error")].

(** The three arguments [params["owner"], params["repo"],
    params["pr_number"]] of the helpers. *)
Definition pr_arguments (params : PyDict) : T (W:=W) (PyVal * PyVal * PyVal) :=
  owner <- lift (subscript (PDict params) "owner") ;;
  repo <- lift (subscript (PDict params) "repo") ;;
  pr_number <- lift (subscript (PDict params) "pr_number") ;;
  ret (owner, repo, pr_number).

(** The mapping built from the three bodies, entry by entry. *)
Definition build_result (pr_info files : PyVal) (diff : string) : T (W:=W) PyVal :=
  pr_title <- lift (subscript pr_info "title") ;;
  user <- lift (subscript pr_info "user") ;;
  pr_author <- lift (subscript user "login") ;;
  items <- lift (iterate files) ;;
  changed_files <- lift (subscript_each items "filename") ;;
  additions <- lift (subscript pr_info "additions") ;;
  deletions <- lift (subscript pr_info "deletions") ;;
  body <- lift (subscript pr_info "body") ;;
  pr_url <- lift (subscript pr_info "html_url") ;;
  repository_private <- lift (get_method pr_info "private" (PBool false)) ;;
  ret (PDict [("pr_title", pr_title);
              ("pr_author", pr_author);
              ("changed_files", PList changed_files);
              ("additions", additions);
              ("deletions", deletions);
              ("diff", PStr (_truncate_diff diff));
              ("pr_description", or_else body (PStr ""));
              ("pr_url", pr_url);
              ("repository_private", repository_private);
              ("status", PStr "success")]).

(** The [try] block of [execute]. *)
Definition execute_try (params : PyDict) : T (W:=W) PyVal :=
  let missing_params := filter (fun param => negb (Dict.has params param)) required_params in
  match missing_params with
  | _ :: _ =>
      ret (error_result ("Missing required parameters: " +++ join ", " missing_params
                           +++ ". Please provide owner, repo, and pr_number."))
  | [] =>
      args <- pr_arguments params ;;
      let '(owner, repo, pr_number) := args in
      pr_info <- _get_pr_info owner repo pr_number ;;
      private <- lift (get_method pr_info "private" (PBool false)) ;;
      if (truthy private && negb (Dict.has (headers self) "Authorization"))%bool then
        ret (error_result
               "This is a private repository. A GitHub token is required for access.")
      else
        args <- pr_arguments params ;;
        let '(owner, repo, pr_number) := args in
        files <- _get_pr_files owner repo pr_number ;;
        args <- pr_arguments params ;;
        let '(owner, repo, pr_number) := args in
        diff <- _get_pr_diff owner repo pr_number ;;
        build_result pr_info files diff
  end.

(** [params.get(key, '')] inside an f-string. *)
Definition param_text (params : PyDict) (key : string) : string :=
  match Dict.get params key with
  | Some v => str v
  | None => ""
  end.

(** [execute]: the [try] block under its two handlers. *)
Definition execute : Tool W :=
  fun params w =>
    match execute_try params w with
    | (Ok result, w') => (Ok result, w')
    | (Raised (ClientResponseError status text), w') =>
        let error_msg :=
          if status =? 404 then
            "PR not found: " +++ param_text params "owner" +++ "/"
              +++ param_text params "repo" +++ "#" +++ param_text params "pr_number"
          else if ((status =? 403) && contains "rate limit exceeded" (lower text))%bool then
            "GitHub API rate limit exceeded. Consider adding authentication for higher limits."
          else text in
        (Ok (error_result error_msg), w')
    | (Raised (Exception cls text), w') =>
        (Ok (error_result ("Error retrieving PR information: " +++ text)), w')
    end.
End Tool.
End GitHub.

(** ** Runs as derivations *)

(** The context after a tool result: the observation, then the result
    under the step's key. *)
Definition record_observation (c : Context) (current_step : Z) (result : PyVal) : Context :=
  set_intermediate_result (set_last_observation c (PyValue.str result))
    (step_key current_step) result.

Section Runs.
Context {W : Type}.
Variable opper : Opper W.
Variable self : AgentRunnerService W.
Variable agent : PyDict.

(** The events every cycle that reaches the decision begins with. *)
Definition cycle_prefix (c : Context) (rreply : Outcome OracleError (string * float))
    (reasoning : AgentReasoning) (areply : Outcome OracleError AgentAction) : list Event :=
  [CycleInput c;
   ReasoningCall (reasoning_input agent c) rreply;
   Metric "reasoning_confidence" (confidence reasoning);
   ActionCall (action_input self agent c reasoning) areply].

(** The seven ways through one cycle [n] begun in the store [st]. *)
Inductive CycleRun (n : Z) (st : Store W) : Flow unit * list Event * Store W -> Prop :=
| cycle_reasoning_fails reply w1 e :
    agent_reasoning opper (reasoning_input agent (context st)) (world st) = (reply, w1) ->
    reasoning_of reply = Raised e ->
    CycleRun n st
      (Leave (RaisedOut e),
       [CycleInput (context st); ReasoningCall (reasoning_input agent (context st)) reply],
       {| context := context st; world := w1 |})
| cycle_action_fails reply w1 reasoning w2 e :
    agent_reasoning opper (reasoning_input agent (context st)) (world st) = (reply, w1) ->
    reasoning_of reply = Ok reasoning ->
    agent_action opper (action_input self agent (context st) reasoning) w1 = (Raised e, w2) ->
    CycleRun n st
      (Leave (RaisedOut e),
       cycle_prefix (context st) reply reasoning (Raised e),
       {| context := context st; world := w2 |})
| cycle_finish reply w1 reasoning w2 action :
    agent_reasoning opper (reasoning_input agent (context st)) (world st) = (reply, w1) ->
    reasoning_of reply = Ok reasoning ->
    agent_action opper (action_input self agent (context st) reasoning) w1 = (Ok action, w2) ->
    action_type action = "finish" ->
    CycleRun n st
      (Leave (Returned (PyValue.or_empty (output action))),
       cycle_prefix (context st) reply reasoning (Ok action)
         ++ [CycleOutput (PDict (PyValue.or_empty (output action)));
             RootOutput (PyValue.or_empty (output action))],
       {| context := context st; world := w2 |})
| cycle_no_tool reply w1 reasoning w2 action :
    agent_reasoning opper (reasoning_input agent (context st)) (world st) = (reply, w1) ->
    reasoning_of reply = Ok reasoning ->
    agent_action opper (action_input self agent (context st) reasoning) w1 = (Ok action, w2) ->
    action_type action <> "finish" ->
    selected_tool action = None ->
    CycleRun n st
      (Go tt,
       cycle_prefix (context st) reply reasoning (Ok action),
       {| context := context st; world := w2 |})
| cycle_tool_not_found reply w1 reasoning w2 action name :
    agent_reasoning opper (reasoning_input agent (context st)) (world st) = (reply, w1) ->
    reasoning_of reply = Ok reasoning ->
    agent_action opper (action_input self agent (context st) reasoning) w1 = (Ok action, w2) ->
    action_type action <> "finish" ->
    selected_tool action = Some name ->
    Dict.get (tools self) name = None ->
    CycleRun n st
      (Leave (Returned (tool_not_found_error (Dict.keys (tools self)) name)),
       cycle_prefix (context st) reply reasoning (Ok action)
         ++ [RootOutput (tool_not_found_error (Dict.keys (tools self)) name)],
       {| context := context st; world := w2 |})
| cycle_tool_raises reply w1 reasoning w2 action name tool e w3 :
    agent_reasoning opper (reasoning_input agent (context st)) (world st) = (reply, w1) ->
    reasoning_of reply = Ok reasoning ->
    agent_action opper (action_input self agent (context st) reasoning) w1 = (Ok action, w2) ->
    action_type action <> "finish" ->
    selected_tool action = Some name ->
    Dict.get (tools self) name = Some tool ->
    tool (dump_models (PyValue.or_empty (tool_params action))) w2 = (Raised e, w3) ->
    CycleRun n st
      (Leave (Returned (tool_execution_error name e)),
       cycle_prefix (context st) reply reasoning (Ok action)
         ++ [ToolCall name (dump_models (PyValue.or_empty (tool_params action))) (Raised e);
             RootOutput (tool_execution_error name e)],
       {| context := context st; world := w3 |})
| cycle_tool_returns reply w1 reasoning w2 action name tool result w3 :
    agent_reasoning opper (reasoning_input agent (context st)) (world st) = (reply, w1) ->
    reasoning_of reply = Ok reasoning ->
    agent_action opper (action_input self agent (context st) reasoning) w1 = (Ok action, w2) ->
    action_type action <> "finish" ->
    selected_tool action = Some name ->
    Dict.get (tools self) name = Some tool ->
    tool (dump_models (PyValue.or_empty (tool_params action))) w2 = (Ok result, w3) ->
    CycleRun n st
      (Go tt,
       cycle_prefix (context st) reply reasoning (Ok action)
         ++ [ToolCall name (dump_models (PyValue.or_empty (tool_params action))) (Ok result);
             CycleOutput result],
       {| context := record_observation (context st) n result; world := w3 |}).

(** A run of the loop from the step counter [k] and the store [st]: the
    budget is spent, or a cycle leaves [run_agent], or a cycle goes on. *)
Inductive LoopRun : Z -> Store W -> RunResult -> list Span -> Store W -> Prop :=
| loop_exhausted k st :
    max_steps self <= k ->
    LoopRun k st (Returned (max_steps_error (max_steps self)))
      [RootOutputAfterLoop (max_steps_error (max_steps self))] st
| loop_leave k st r evs st' :
    k < max_steps self ->
    CycleRun (k + 1) (enter_cycle st (k + 1)) (Leave r, evs, st') ->
    LoopRun k st r [Cycle (k + 1) evs] st'
| loop_go k st evs st' r spans st'' :
    k < max_steps self ->
    CycleRun (k + 1) (enter_cycle st (k + 1)) (Go tt, evs, st') ->
    LoopRun (k + 1) st' r spans st'' ->
    LoopRun k st r (Cycle (k + 1) evs :: spans) st''.
End Runs.

(** ** Reading a trace *)

Module Trace.
Definition cycle_events (s : Span) : list Event :=
  match s with
  | Cycle _ evs => evs
  | _ => []
  end.

(** The events of all the cycles, in order. *)
Definition events (t : list Span) : list Event := flat_map cycle_events t.

(** The numbers of the cycles run. *)
Definition cycle_numbers (t : list Span) : list Z :=
  flat_map (fun s => match s with Cycle n _ => [n] | _ => [] end) t.


(** The answers received, per kind of call. *)
Definition reasoning_replies (t : list Span) : list (Outcome OracleError (string * float)) :=
  flat_map (fun e => match e with ReasoningCall _ r => [r] | _ => [] end) (events t).

Definition action_replies (t : list Span) : list (Outcome OracleError AgentAction) :=
  flat_map (fun e => match e with ActionCall _ r => [r] | _ => [] end) (events t).

Definition tool_replies (t : list Span) : list (Outcome PyExc PyVal) :=
  flat_map (fun e => match e with ToolCall _ _ r => [r] | _ => [] end) (events t).

(** What follows a cycle [n] that went on, having left the context [c]:
    the next cycle, which starts from [c] with the counter moved, or the
    end of the budget with [c] as it was. *)
Definition goes_on {W : Type} (self : AgentRunnerService W) (n : Z) (c : Context)
    (post : list Span) (out : RunOutput W) : Prop :=
  (exists evs post', post = Cycle (n + 1) (CycleInput (set_current_step c (n + 1)) :: evs) :: post')
  \/ (post = [RootOutputAfterLoop (max_steps_error (max_steps self))]
      /\ result out = Returned (max_steps_error (max_steps self))
      /\ context (final out) = c).
(** The run finished: some cycle's decision was ["finish"], and [d] is its
    output, or the empty mapping when it has none. *)
Definition finished_with (t : list Span) (d : PyDict) : Prop :=
  exists n evs req action,
    In (Cycle n evs) t
    /\ In (ActionCall req (Ok action)) evs
    /\ action_type action = "finish"
    /\ d = PyValue.or_empty (output action).

(** An oracle call of the run failed with [e]: the reasoning call raised or
    its answer did not validate, or the decision call raised. *)
Definition oracle_failed_with (t : list Span) (e : OracleError) : Prop :=
  exists n evs,
    In (Cycle n evs) t
    /\ ((exists req reply, In (ReasoningCall req reply) evs /\ reasoning_of reply = Raised e)
        \/ (exists req, In (ActionCall req (Raised e)) evs)).

(** The error results [run_agent] builds itself. *)
Definition controller_error {W : Type} (self : AgentRunnerService W) (d : PyDict) : Prop :=
  (exists name, d = tool_not_found_error (Dict.keys (tools self)) name)
  \/ (exists name e, d = tool_execution_error name e)
  \/ d = max_steps_error (max_steps self).
End Trace.

(** ** The shapes of a returned mapping *)

Definition nonempty_text (d : PyDict) (k : string) : bool :=
  match Dict.get d k with
  | Some (PStr s) => negb (String.eqb s "")
  | _ => false
  end.

(** The required fields of [AgentOutput], with a text in each, and no
    [error] field. *)
Definition FinalOutput_shape (d : PyDict) : bool :=
  (nonempty_text d "review_summary" && nonempty_text d "overall_assessment"
   && negb (Dict.has d "error"))%bool.

(** The test of the caller, [if "error" in result]. *)
Definition ErrorResult_shape (d : PyDict) : bool := Dict.has d "error".

(** ** The result as a function of the answers *)

(** What [run_agent] returns, read off the answers alone: the registered
    names, the budget, the number of cycles left, and the answers of the
    reasoning calls, the decision calls and the tools, each in order. *)
Fixpoint replay (available_tools : list string) (max_steps : Z) (cycles : nat)
    (rs : list (Outcome OracleError (string * float)))
    (acts : list (Outcome OracleError AgentAction))
    (ts : list (Outcome PyExc PyVal)) : RunResult :=
  match cycles, rs with
  | S cycles', r :: rs' =>
      match reasoning_of r, acts with
      | Raised e, _ => RaisedOut e
      | Ok _, Raised e :: _ => RaisedOut e
      | Ok _, Ok action :: acts' =>
          if String.eqb (action_type action) "finish"
          then Returned (PyValue.or_empty (output action))
          else
            match selected_tool action with
            | None => replay available_tools max_steps cycles' rs' acts' ts
            | Some name =>
                if existsb (String.eqb name) available_tools then
                  match ts with
                  | Raised e :: _ => Returned (tool_execution_error name e)
                  | Ok _ :: ts' => replay available_tools max_steps cycles' rs' acts' ts'
                  | [] => Returned (max_steps_error max_steps)
                  end
                else Returned (tool_not_found_error available_tools name)
            end
      | Ok _, [] => Returned (max_steps_error max_steps)
      end
  | _, _ => Returned (max_steps_error max_steps)
  end.

(** ** Oracles that always answer alike *)



(** ** Test doubles *)

(** Oracles, tools and HTTP services to run the controller against. *)
Module Fake.

(** The two actions the decision prompt offers. *)
Definition use_tool (name : string) (params : PyDict) : AgentAction :=
  {| action_type := "use_tool"; tool_name := Some name;
     tool_params := Some params; output := None |}.

Definition finish (d : option PyDict) : AgentAction :=
  {| action_type := "finish"; tool_name := None; tool_params := None; output := d |}.

(** An action of a kind the prompt does not offer. *)
Definition ponder : AgentAction :=
  {| action_type := "think"; tool_name := None; tool_params := None; output := None |}.

(** An oracle that answers every call alike; its world counts the calls. *)
Definition steady (score : float) (action : AgentAction) : Opper nat :=
  {| agent_reasoning := fun _ calls => (Ok ("thinking", score), S calls);
     agent_action := fun _ calls => (Ok action, S calls) |}.

(** A scripted oracle: its world is the answers it has yet to give. *)
Record Script : Type := {
  reasonings : list (Outcome OracleError (string * float));
  actions : list (Outcome OracleError AgentAction)
}.

Definition script_ended : OracleError :=
  CallError (Exception "RuntimeError" "the script has no answer left").

Definition scripted : Opper Script :=
  {| agent_reasoning := fun _ s =>
       match reasonings s with
       | r :: rest => (r, {| reasonings := rest; actions := actions s |})
       | [] => (Raised script_ended, s)
       end;
     agent_action := fun _ s =>
       match actions s with
       | a :: rest => (a, {| reasonings := reasonings s; actions := rest |})
       | [] => (Raised script_ended, s)
       end |}.

(** A tool that returns its parameters, and one that raises. *)
Definition echo {W : Type} : Tool W := fun params w => (Ok (PDict params), w).

Definition broken {W : Type} (text : string) : Tool W :=
  fun _ w => (Raised (Exception "RuntimeError" text), w).

(** A controller with one tool and a budget. *)
Definition runner {W : Type} (name : string) (tool : Tool W) (budget : Z)
  : AgentRunnerService W :=
  {| tools := tools (register_tools AgentRunnerService_init [(name, tool)]);
     max_steps := budget |}.


Definition pr_params : PyDict :=
  [("owner", PStr "opper-ai"); ("repo", PStr "blog-examples"); ("pr_number", PInt 7)].

Definition the_review : PyDict :=
  [("review_summary", PStr "ok"); ("overall_assessment", PStr "good")].

Definition the_agent : PyDict :=
  [("instructions", PStr "You are a GitHub PR reviewer."); ("verbose", PBool false)].

End Fake.

(** ** More readings of a trace *)

Module Observed.

(** The results the tools returned in the events of one cycle. *)
Definition tool_results (evs : list Event) : list PyVal :=
  flat_map (fun e => match e with ToolCall _ _ (Ok r) => [r] | _ => [] end) evs.

(** The results the tools returned in a run, each with the number of its
    cycle, in order. *)
Definition observations (t : list Span) : list (Z * PyVal) :=
  flat_map (fun s => match s with
                     | Cycle n evs => map (pair n) (tool_results evs)
                     | _ => []
                     end) t.

(** The entry of [intermediate_results] an observation makes. *)
Definition entry (o : Z * PyVal) : string * PyVal := (step_key (fst o), snd o).


End Observed.

(** ** The requests of the GitHub tool *)

Module Probe.

(** One [session.get]: the URL, the headers sent, and whether the body is
    read as text ([response.text()]) or as JSON. *)
Record Request : Type := {
  url : string;
  sent : list (string * string);
  as_text : bool
}.

(** An HTTP service that answers as [http] does and keeps beside its world
    the requests it received, in order. *)
Definition logged {W : Type} (http : GitHub.Http W) : GitHub.Http (W * list Request) :=
  {| GitHub.get_json := fun u h wl =>
       match GitHub.get_json http u h (fst wl) with
       | (r, w') => (r, (w', snd wl ++ [{| url := u; sent := h; as_text := false |}]))
       end;
     GitHub.get_text := fun u h wl =>
       match GitHub.get_text http u h (fst wl) with
       | (r, w') => (r, (w', snd wl ++ [{| url := u; sent := h; as_text := true |}]))
       end |}.

(** The three requests of [execute] for a pull request, in the order it
    makes them. *)
Definition expected (gh : GitHub.GitHubPRTool) (owner repo pr_number : PyVal) : list Request :=
  [{| url := GitHub.pull_url gh owner repo pr_number;
      sent := GitHub.headers gh; as_text := false |};
   {| url := GitHub.pull_url gh owner repo pr_number +++ "/files";
      sent := GitHub.headers gh; as_text := false |};
   {| url := GitHub.pull_url gh owner repo pr_number;
      sent := Dict.set (GitHub.headers gh) "Accept" "application/vnd.github.v3.diff";
      as_text := true |}].

End Probe.

(** ** [main.py] *)

Module Main.
Import PyText PyValue.

Definition newline : string := String (ascii_of_nat 10) "".



(** [input_data], from the command line. *)
Definition input_data (owner repo : string) (pr_number : Z) : PyDict :=
  [("owner", PStr owner); ("repo", PStr repo); ("pr_number", PInt pr_number)].


(** [result.get(key, default)] inside an f-string. *)
Definition field_text (result : PyDict) (key default : string) : string :=
  match Dict.get result key with
  | Some v => str v
  | None => default
  end.

(** The lines [for item in items: print(f"- {item}")] writes under a title,
    when [result.get(key)] is there and true; iterating a value that cannot
    be iterated raises, after the title was printed. *)
Definition print_items (result : PyDict) (key title : string)
  : list string * Outcome PyExc unit :=
  match Dict.get result key with
  | Some items =>
      if truthy items then
        match PyOps.iterate items with
        | Ok l => (title :: map (fun item => "- " +++ str item) l, Ok tt)
        | Raised e => ([title], Raised e)
        end
      else ([], Ok tt)
  | None => ([], Ok tt)
  end.

(** What [main] prints once [run_agent] has returned [result], one text
    per [print]: the error alone when there is an [error] field, else the
    review; an exception on the way is printed by the handler of [main]. *)
Definition print_result (result : PyDict) : list string :=
  if Dict.has result "error" then
    ["Error: " +++ field_text result "error" ""]
  else
    let header := [newline +++ "=== PR Review Results ===";
                   newline +++ "Summary: "
                     +++ field_text result "review_summary" "No summary provided"] in
    match print_items result "issues_found" (newline +++ "Issues Found:") with
    | (issues, Raised e) => header ++ issues ++ ["Error running the agent: " +++ exc_str e]
    | (issues, Ok _) =>
        match print_items result "suggestions" (newline +++ "Suggestions:") with
        | (suggestions, Raised e) =>
            header ++ issues ++ suggestions ++ ["Error running the agent: " +++ exc_str e]
        | (suggestions, Ok _) =>
            header ++ issues ++ suggestions
              ++ [newline +++ "Overall Assessment: "
                    +++ field_text result "overall_assessment" "No assessment provided"]
        end
    end.

End Main.

(** ** A pull request to serve *)

Module Sample.

Definition pull (private : bool) : PyVal :=
  PDict [("title", PStr "Fix the reviewer's prompt");
         ("user", PDict [("login", PStr "octocat")]);
         ("additions", PInt 3);
         ("deletions", PInt 1);
         ("body", PNone);
         ("html_url", PStr "https://github.com/opper-ai/blog-examples/pull/7");
         ("private", PBool private)].

Definition files : PyVal :=
  PList [PDict [("filename", PStr "README.md")];
         PDict [("filename", PStr "main.py")]].

Definition diff : string := "diff --git a/README.md b/README.md".

(** An HTTP service that has the pull request, its files and its diff. *)
Definition serves {W : Type} (private : bool) : GitHub.Http W :=
  {| GitHub.get_json := fun url _ w =>
       (Ok (if PyText.contains "/files" url then files else pull private), w);
     GitHub.get_text := fun _ _ w => (Ok diff, w) |}.

(** An HTTP service that fails each request with a status. *)
Definition fails {W : Type} (status : Z) (text : string) : GitHub.Http W :=
  {| GitHub.get_json := fun _ _ w => (Raised (ClientResponseError status text), w);
     GitHub.get_text := fun _ _ w => (Raised (ClientResponseError status text), w) |}.

End Sample.

(** * Proofs *)

(** ** Tactics *)

(** Unfolds the statements of a cycle down to the calls. *)
Ltac run_monad :=
  cbv [react_cycle react_reasoning react_action_selection
       RunM.bind RunM.call RunM.emit RunM.ret RunM.raise RunM.return_
       RunM.get_context RunM.update_context]; cbn [context world].

(** Takes the next statement of a tool computation apart. *)
Ltac tool_step :=
  match goal with
  | |- context [match ?r with Ok _ => _ | Raised _ => _ end] =>
      match r with
      | context [match _ with Ok _ => _ | Raised _ => _ end] => fail 1
      | _ => destruct r eqn:?; cbn
      end
  | |- context [let (_, _) := ?r in _] =>
      match r with
      | context [match _ with Ok _ => _ | Raised _ => _ end] => fail 1
      | _ => destruct r as [[? | ?] ?] eqn:?; cbn
      end
  end.

(** Settles events of a cycle against an event looked for in it. *)
Ltac find_event H :=
  unfold cycle_prefix in H; cbn [In app] in H;
  repeat match type of H with
         | _ \/ _ => destruct H as [H | H]
         | False => contradiction
         | _ = _ => first [discriminate H | injection H as H; subst]
         end.

(** Replaces the output of a run on a test double by its value. *)
Ltac compute_run Hrun Hval :=
  pose proof Hrun as Hval; vm_compute in Hval; injection Hval as Hval; symmetry in Hval.

(** ** One cycle *)

Section CycleFacts.
Context {W : Type}.
Variable opper : Opper W.
Variable self : AgentRunnerService W.
Variable agent : PyDict.

(** [react_cycle] takes one of the seven ways. *)
Lemma react_cycle_run (n : Z) (st : Store W) :
  CycleRun opper self agent n st (react_cycle opper self agent n st).
Proof.
  run_monad.
  destruct (agent_reasoning opper (reasoning_input agent (context st)) (world st))
    as [reply w1] eqn:Hr.
  destruct (reasoning_of reply) as [reasoning | e] eqn:Hv; cbn.
  2: { eapply cycle_reasoning_fails; eauto. }
  destruct (agent_action opper (action_input self agent (context st) reasoning) w1)
    as [[action | e] w2] eqn:Ha; cbn.
  2: { eapply cycle_action_fails; eauto. }
  destruct (String.eqb (action_type action) "finish") eqn:Hf; cbn.
  { apply String.eqb_eq in Hf. eapply cycle_finish; eauto. }
  apply String.eqb_neq in Hf.
  destruct (selected_tool action) as [name |] eqn:Hs; cbn.
  2: { eapply cycle_no_tool; eauto. }
  destruct (Dict.get (tools self) name) as [tool |] eqn:Ht; cbn.
  2: { eapply cycle_tool_not_found; eauto. }
  destruct (tool (dump_models (PyValue.or_empty (tool_params action))) w2)
    as [[result | e] w3] eqn:Hc; cbn.
  - eapply cycle_tool_returns; eauto.
  - eapply cycle_tool_raises; eauto.
Qed.
End CycleFacts.

(** ** The data model *)



(** The only failure of the model is a validation error on the score. *)
Lemma validate_raised (text : string) (score : float) (e : OracleError) :
  AgentReasoning_validate text score = Raised e ->
  exists kind, e = ValidationError "AgentReasoning" "confidence" kind.
Proof.
  unfold AgentReasoning_validate, Field_ge_le, validate_confidence.
  destruct (PrimFloat.ltb 1 score) eqn:H1; [intros [= <-]; eauto |].
  destruct (PrimFloat.ltb score 0) eqn:H0; [intros [= <-]; eauto |].
  rewrite H0, H1. discriminate.
Qed.


(** The guard of the tool branch, read both ways. *)
Lemma selected_tool_some (action : AgentAction) (name : string) :
  selected_tool action = Some name <->
  action_type action = "use_tool" /\ tool_name action = Some name /\ name <> "".
Proof.
  unfold selected_tool. split.
  - destruct (String.eqb (action_type action) "use_tool") eqn:Ht; [| discriminate].
    apply String.eqb_eq in Ht.
    destruct (tool_name action) as [t |]; [| discriminate].
    destruct (String.eqb t "") eqn:He; [discriminate |].
    apply String.eqb_neq in He. intros [= <-]. auto.
  - intros (-> & -> & Hne). cbn. apply String.eqb_neq in Hne. now rewrite Hne.
Qed.

Lemma selected_tool_other (action : AgentAction) :
  action_type action <> "use_tool" -> selected_tool action = None.
Proof.
  intros H. unfold selected_tool. apply String.eqb_neq in H. now rewrite H.
Qed.

(** Membership in a registry, by its names. *)
Lemma dict_get_keys {V : Type} (d : list (string * V)) (k : string) :
  existsb (String.eqb k) (Dict.keys d) = Dict.has d k.
Proof.
  unfold Dict.has, Dict.keys. induction d as [| [k' v] d IH]; [reflexivity |].
  cbn. destruct (String.eqb k k'); [reflexivity | exact IH].
Qed.

(** ** The loop *)

Section LoopFacts.
Context {W : Type}.
Variable opper : Opper W.
Variable self : AgentRunnerService W.
Variable agent : PyDict.

Local Abbreviation cycle_run := (CycleRun opper self agent).
Local Abbreviation loop_run := (LoopRun opper self agent).

(** What [while_loop] computes is a run of the loop. *)
Lemma while_loop_run (fuel : nat) :
  forall k st r spans st',
    while_loop opper self agent fuel k st = Some (r, spans, st') ->
    loop_run k st r spans st'.
Proof.
  induction fuel as [| fuel IH]; intros k st r spans st' H; cbn [while_loop] in H.
  - destruct (k <? max_steps self) eqn:Hk; [discriminate |].
    apply Z.ltb_ge in Hk. injection H as <- <- <-. now constructor.
  - destruct (k <? max_steps self) eqn:Hk.
    + apply Z.ltb_lt in Hk.
      pose proof (react_cycle_run opper self agent (k + 1) (enter_cycle st (k + 1))) as HC.
      destruct (react_cycle opper self agent (k + 1) (enter_cycle st (k + 1)))
        as [[[[] | r0] evs] st1].
      * destruct (while_loop opper self agent fuel (k + 1) st1) as [[[r1 spans1] st2] |] eqn:Hw;
          [| discriminate].
        injection H as <- <- <-. eapply loop_go; eauto.
      * injection H as <- <- <-. eapply loop_leave; eauto.
    + apply Z.ltb_ge in Hk. injection H as <- <- <-. now constructor.
Qed.

(** With fuel for the cycles that the budget leaves, the loop ends. *)
Lemma while_loop_total (fuel : nat) :
  forall k st,
    (Z.to_nat (max_steps self - k) <= fuel)%nat ->
    exists out, while_loop opper self agent fuel k st = Some out.
Proof.
  induction fuel as [| fuel IH]; intros k st Hfuel; cbn [while_loop].
  - destruct (k <? max_steps self) eqn:Hk; [| eauto].
    apply Z.ltb_lt in Hk. lia.
  - destruct (k <? max_steps self) eqn:Hk; [| eauto].
    apply Z.ltb_lt in Hk.
    destruct (react_cycle opper self agent (k + 1) (enter_cycle st (k + 1)))
      as [[[[] | r0] evs] st1]; [| eauto].
    destruct (IH (k + 1) st1) as [[[r1 spans1] st2] Hw]; [lia |].
    rewrite Hw. eauto.
Qed.

(** [run_agent] always ends, and its output is a run of the loop from
    step [0] under the root span's input. *)
Lemma run_agent_run (agent_id : string) (input_data : PyDict) (w : W) :
  exists out root spans,
    run_agent opper self agent_id agent input_data w = Some out
    /\ trace out = RootInput root :: spans
    /\ loop_run 0 (initial_store input_data w) (result out) spans (final out).
Proof.
  unfold run_agent.
  destruct (while_loop_total (Z.to_nat (max_steps self)) 0 (initial_store input_data w))
    as [[[r spans] st] Hw]; [lia |].
  rewrite Hw.
  eexists _, _, spans. split; [reflexivity |]. split; [reflexivity |].
  cbn [result final]. now apply while_loop_run in Hw.
Qed.

(** Every cycle opens with its input, the context it starts from. *)
Lemma cycle_run_head n st f evs st' :
  cycle_run n st (f, evs, st') ->
  exists rest, evs = CycleInput (context st) :: rest.
Proof. inversion 1; subst; unfold cycle_prefix; simpl; eauto. Qed.

(** How the spans of a run begin. *)
Lemma loop_run_head k st r spans st' :
  loop_run k st r spans st' ->
  (max_steps self <= k
   /\ spans = [RootOutputAfterLoop (max_steps_error (max_steps self))]
   /\ r = Returned (max_steps_error (max_steps self)) /\ st' = st)
  \/ (k < max_steps self
      /\ exists evs spans',
           spans = Cycle (k + 1) (CycleInput (set_current_step (context st) (k + 1)) :: evs)
                     :: spans').
Proof.
  destruct 1 as [k st Hk | k st r evs st' Hk HC | k st evs st' r spans st'' Hk HC HL].
  - left. auto.
  - right. split; [assumption |]. apply cycle_run_head in HC as [rest ->]. cbn. eauto.
  - right. split; [assumption |]. apply cycle_run_head in HC as [rest ->]. cbn. eauto.
Qed.

(** A cycle found anywhere in a run was run from some store whose context
    carries the cycle's number; if it left [run_agent] it is the last span
    and gives the result, and otherwise the rest of the spans is the run
    from where it stopped. *)
Lemma loop_run_split k st r spans st_end :
  loop_run k st r spans st_end ->
  forall pre n evs post,
    spans = pre ++ Cycle n evs :: post ->
    exists st_n f st_n',
      n = k + 1 + Z.of_nat (List.length pre)
      /\ n <= max_steps self
      /\ current_step (context st_n) = n
      /\ cycle_run n st_n (f, evs, st_n')
      /\ match f with
         | Leave r' => post = [] /\ r = r' /\ st_end = st_n'
         | Go _ => loop_run n st_n' r post st_end
         end.
Proof.
  induction 1 as [k st Hk | k st r evs0 st' Hk HC | k st evs0 st' r spans st'' Hk HC HL IH];
    intros pre n evs post Heq.
  - destruct pre as [| ? [| ? ?]]; discriminate.
  - destruct pre as [| p pre]; cbn in Heq.
    + injection Heq as <- <- <-.
      exists (enter_cycle st (k + 1)), (Leave r), st'.
      repeat split; auto; cbn; lia.
    + destruct pre; discriminate.
  - destruct pre as [| p pre]; cbn in Heq.
    + injection Heq as <- <- <-.
      exists (enter_cycle st (k + 1)), (Go tt), st'.
      repeat split; auto; cbn; lia.
    + injection Heq as _ Heq.
      destruct (IH _ _ _ _ Heq) as (st_n & f & st_n' & Hn & Hmax & Hstep & Hc & Hrest).
      exists st_n, f, st_n'. repeat split; auto. cbn [List.length]. lia.
Qed.
(** How a run of the loop can end: with the output of a ["finish"], with
    one of the controller's own error results, or with the exception of an
    oracle call that failed. *)
Lemma loop_run_result k st r spans st' :
  loop_run k st r spans st' ->
  match r with
  | Returned d => Trace.finished_with spans d \/ Trace.controller_error self d
  | RaisedOut e => Trace.oracle_failed_with spans e
  end.
Proof.
  induction 1 as [k st Hk | k st r evs st' Hk HC | k st evs st' r spans st'' Hk HC HL IH].
  - right. right. right. reflexivity.
  - inversion HC; subst.
    + eexists (k + 1), _. split; [left; reflexivity |]. left. eexists _, _.
      split; [right; left; reflexivity | assumption].
    + eexists (k + 1), _. split; [left; reflexivity |]. right. eexists.
      unfold cycle_prefix. cbn. do 3 right. left. reflexivity.
    + left. eexists (k + 1), _, _, action. split; [left; reflexivity |].
      split; [unfold cycle_prefix; cbn; do 3 right; left; reflexivity | auto].
    + right. left. eauto.
    + right. right. left. eauto.
  - destruct r as [d | e].
    + destruct IH as [(n & evs' & req & action & Hin & H) | IH]; [| right; exact IH].
      left. exists n, evs', req, action. split; [right; exact Hin | exact H].
    + destruct IH as (n & evs' & Hin & H). exists n, evs'. split; [right; exact Hin | exact H].
Qed.
(** The output recorded after the loop is the budget's error result, and
    it is what the run returns. *)
Lemma loop_run_after_loop k st r spans st' :
  loop_run k st r spans st' ->
  forall d, In (RootOutputAfterLoop d) spans ->
    d = max_steps_error (max_steps self) /\ r = Returned d.
Proof.
  induction 1 as [k st Hk | k st r evs st' Hk HC | k st evs st' r spans st'' Hk HC HL IH];
    intros d Hin.
  - destruct Hin as [[= <-] | []]. auto.
  - destruct Hin as [Hin | []]. discriminate Hin.
  - destruct Hin as [Hin | Hin]; [discriminate Hin | auto].
Qed.


(** The result of a run of the loop is [replay] of the answers it got. *)
Lemma loop_run_replay k st r spans st' :
  loop_run k st r spans st' ->
  r = replay (Dict.keys (tools self)) (max_steps self) (Z.to_nat (max_steps self - k))
        (Trace.reasoning_replies spans) (Trace.action_replies spans)
        (Trace.tool_replies spans).
Proof.
  induction 1 as [k st Hk | k st r evs st' Hk HC | k st evs st' r spans st'' Hk HC HL IH].
  - replace (Z.to_nat (max_steps self - k)) with 0%nat by lia. reflexivity.
  - replace (Z.to_nat (max_steps self - k)) with (S (Z.to_nat (max_steps self - (k + 1))))
      by lia.
    inversion HC; subst; cbn;
      repeat match goal with
             | H : reasoning_of _ = _ |- _ => rewrite H; clear H
             | H : action_type _ = "finish" |- _ => rewrite H; clear H
             | H : action_type _ <> "finish" |- _ => apply String.eqb_neq in H; rewrite H; clear H
             | H : selected_tool _ = _ |- _ => rewrite H; clear H
             end; cbn; try reflexivity;
      rewrite dict_get_keys; unfold Dict.has;
      match goal with H : Dict.get _ _ = _ |- _ => rewrite H end; reflexivity.
  - replace (Z.to_nat (max_steps self - k)) with (S (Z.to_nat (max_steps self - (k + 1))))
      by lia.
    rewrite IH.
    inversion HC; subst;
      unfold Trace.reasoning_replies, Trace.action_replies, Trace.tool_replies, Trace.events;
      cbn;
      repeat match goal with
             | H : reasoning_of _ = _ |- _ => rewrite H; clear H
             | H : action_type _ <> "finish" |- _ => apply String.eqb_neq in H; rewrite H; clear H
             | H : selected_tool _ = _ |- _ => rewrite H; clear H
             end; cbn; try reflexivity.
    rewrite dict_get_keys; unfold Dict.has;
      match goal with H : Dict.get _ _ = _ |- _ => rewrite H end; reflexivity.
Qed.
End LoopFacts.

(** ** Text *)

Section TextFacts.
Import PyText.

Lemma prefix_empty (s : string) : prefix "" s = true.
Proof. destruct s; reflexivity. Qed.

Lemma prefix_refl (s : string) : prefix s s = true.
Proof.
  induction s as [| c s IH]; cbn; [reflexivity |].
  destruct (ascii_dec c c); [assumption | contradiction].
Qed.

Lemma prefix_append (sub s q : string) : prefix sub s = true -> prefix sub (s +++ q) = true.
Proof.
  revert s; induction sub as [| c sub IH]; intros s H; [apply prefix_empty |].
  destruct s as [| d s]; cbn in *; [discriminate |].
  destruct (ascii_dec c d); [auto | discriminate].
Qed.

Lemma contains_prefix (sub s : string) : prefix sub s = true -> contains sub s = true.
Proof. intros H. destruct s; cbn [contains]; rewrite H; reflexivity. Qed.

Lemma contains_refl (s : string) : contains s s = true.
Proof. apply contains_prefix, prefix_refl. Qed.

Lemma contains_append_l (sub p s : string) :
  contains sub s = true -> contains sub (p +++ s) = true.
Proof.
  intros H. induction p as [| c p IH]; cbn [String.append]; [assumption |].
  cbn [contains]. rewrite IH. apply orb_true_r.
Qed.

Lemma contains_append_r (sub s q : string) :
  contains sub s = true -> contains sub (s +++ q) = true.
Proof.
  induction s as [| c s IH]; intros H.
  - cbn [contains] in H. rewrite orb_false_r in H.
    apply contains_prefix. now apply (prefix_append sub "" q).
  - cbn [contains] in H. apply orb_true_iff in H as [H | H].
    + apply contains_prefix. now apply prefix_append.
    + cbn [String.append contains]. rewrite (IH H). apply orb_true_r.
Qed.

(** A part is found in the joined text. *)
Lemma contains_join (sep x : string) (parts : list string) :
  In x parts -> contains x (join sep parts) = true.
Proof.
  induction parts as [| y parts IH]; intros Hin; [contradiction |].
  destruct parts as [| z parts].
  - destruct Hin as [-> | []]. cbn. apply contains_refl.
  - change (join sep (y :: z :: parts)) with (y +++ sep +++ join sep (z :: parts)).
    destruct Hin as [-> | Hin].
    + apply contains_append_r, contains_refl.
    + apply contains_append_l, contains_append_l, IH, Hin.
Qed.

(** The text of an unknown-tool error shows every registered name, as
    [repr] writes it. *)
Lemma tool_not_found_lists (available : list string) (name t : string) :
  In t available ->
  exists msg,
    tool_not_found_error available name = [("error", PStr msg)]
    /\ contains (repr_str t) msg = true.
Proof.
  intros Hin. eexists. split; [reflexivity |].
  apply contains_append_l with (p := "Tool '").
  apply contains_append_l, contains_append_l.
  cbn [PyValue.repr]. apply contains_append_l with (p := "[").
  apply contains_append_r, contains_join.
  rewrite map_map. apply in_map_iff. exists t. split; [reflexivity | assumption].
Qed.

(** The text of a tool-exception error ends with the exception's text. *)
Lemma tool_execution_shows (name : string) (e : PyExc) :
  exists msg,
    tool_execution_error name e = [("error", PStr msg)]
    /\ contains (exc_str e) msg = true.
Proof.
  eexists. split; [reflexivity |].
  apply contains_append_l with (p := "Error executing tool ").
  apply contains_append_l, contains_append_l, contains_refl.
Qed.
End TextFacts.

(** ** Whole runs *)

Section RunFacts.
Context {W : Type}.
Variable opper : Opper W.
Variable self : AgentRunnerService W.
Variable agent : PyDict.

(** [run_agent] ends, and each cycle of its trace is a cycle run from some
    store, followed by the rest of the run; the cycle [n] is the [n]-th
    span after the root's input. *)
Lemma run_agent_cycles (agent_id : string) (input_data : PyDict) (w : W) :
  exists out,
    run_agent opper self agent_id agent input_data w = Some out
    /\ forall pre n evs post,
         trace out = pre ++ Cycle n evs :: post ->
         exists root cycles st_n f st_n',
           pre = RootInput root :: cycles
           /\ n = 1 + Z.of_nat (List.length cycles)
           /\ n <= max_steps self
           /\ current_step (context st_n) = n
           /\ CycleRun opper self agent n st_n (f, evs, st_n')
           /\ match f with
              | Leave r' => post = [] /\ result out = r' /\ final out = st_n'
              | Go _ => LoopRun opper self agent n st_n' (result out) post (final out)
              end.
Proof.
  destruct (run_agent_run opper self agent agent_id input_data w)
    as (out & root & spans & Hrun & Htrace & Hloop).
  exists out. split; [assumption |].
  intros pre n evs post Heq. rewrite Htrace in Heq.
  destruct pre as [| p pre]; [discriminate |].
  injection Heq as <- Heq.
  destruct (loop_run_split opper self agent _ _ _ _ _ Hloop _ _ _ _ Heq)
    as (st_n & f & st_n' & Hn & H).
  exists root, pre, st_n, f, st_n'. split; [reflexivity |]. split; [lia | exact H].
Qed.

(** The same, for a cycle known only to be in the trace. *)
Lemma run_agent_cycle_in (agent_id : string) (input_data : PyDict) (w : W) :
  exists out,
    run_agent opper self agent_id agent input_data w = Some out
    /\ forall n evs,
         In (Cycle n evs) (trace out) ->
         exists pre post st_n f st_n',
           trace out = pre ++ Cycle n evs :: post
           /\ Z.of_nat (List.length pre) = n
           /\ n <= max_steps self
           /\ current_step (context st_n) = n
           /\ CycleRun opper self agent n st_n (f, evs, st_n')
           /\ match f with
              | Leave r' => post = [] /\ result out = r' /\ final out = st_n'
              | Go _ => LoopRun opper self agent n st_n' (result out) post (final out)
              end.
Proof.
  destruct (run_agent_cycles agent_id input_data w) as (out & Hrun & Hcyc).
  exists out. split; [assumption |].
  intros n evs Hin. apply in_split in Hin as (pre & post & Heq).
  destruct (Hcyc _ _ _ _ Heq) as (root & cycles & st_n & f & st_n' & -> & Hn & H).
  exists (RootInput root :: cycles), post, st_n, f, st_n'.
  split; [assumption |]. split; [cbn [List.length]; lia | exact H].
Qed.
(** After a cycle that went on, the trace goes on from the context the
    cycle left. *)
Lemma loop_run_goes_on (n : Z) (st : Store W) (out : RunOutput W) (post : list Span) :
  LoopRun opper self agent n st (result out) post (final out) ->
  Trace.goes_on self n (context st) post out.
Proof.
  intros H. destruct (loop_run_head opper self agent _ _ _ _ _ H)
    as [(Hk & Hpost & Hres & Hfin) | (Hk & evs & spans' & Hpost)].
  - right. rewrite Hfin. auto.
  - left. eauto.
Qed.
(** How [run_agent] can end. *)
Lemma run_agent_result (agent_id : string) (input_data : PyDict) (w : W) :
  exists out,
    run_agent opper self agent_id agent input_data w = Some out
    /\ match result out with
       | Returned d => Trace.finished_with (trace out) d \/ Trace.controller_error self d
       | RaisedOut e => Trace.oracle_failed_with (trace out) e
       end
    /\ forall d, In (RootOutputAfterLoop d) (trace out) ->
         d = max_steps_error (max_steps self) /\ result out = Returned d.
Proof.
  destruct (run_agent_run opper self agent agent_id input_data w)
    as (out & root & spans & Hrun & Htrace & Hloop).
  exists out. split; [assumption |]. split.
  - pose proof (loop_run_result opper self agent _ _ _ _ _ Hloop) as H.
    rewrite Htrace. destruct (result out) as [d | e].
    + destruct H as [(n & evs & req & action & Hin & H) | H]; [| right; exact H].
      left. exists n, evs, req, action. split; [right; exact Hin | exact H].
    + destruct H as (n & evs & Hin & H). exists n, evs. split; [right; exact Hin | exact H].
  - intros d Hin. rewrite Htrace in Hin. destruct Hin as [Hin | Hin]; [discriminate Hin |].
    exact (loop_run_after_loop opper self agent _ _ _ _ _ Hloop d Hin).
Qed.

(** Each error result of the controller is a mapping with the one field
    [error]. *)
Lemma controller_error_shape (d : PyDict) :
  Trace.controller_error self d ->
  exists msg, d = [("error", PStr msg)].
Proof.
  intros [(name & ->) | [(name & e & ->) | ->]]; eexists; reflexivity.
Qed.
End RunFacts.

(** ** The GitHub tool *)

Section GitHubFacts.
Context {W : Type}.
Variable gh : GitHub.GitHubPRTool.
Variable http : GitHub.Http W.

Import GitHub.

(** The mapping built from the bodies says [success]. *)
Lemma build_result_returns (pr_info files : PyVal) (diff : string) (w : W) (v : PyVal) (w' : W) :
  build_result pr_info files diff w = (Ok v, w') ->
  exists d, v = PDict d /\ Dict.get d "status" = Some (PStr "success").
Proof.
  cbv [build_result ToolM.bind ToolM.lift ToolM.ret].
  repeat tool_step; try discriminate.
  intros [= <- <-]. eexists. split; reflexivity.
Qed.



(** A required parameter that is missing gives an error mapping, with no
    request made. *)
Lemma execute_missing (params : PyDict) (w : W) (p : string) :
  In p required_params -> Dict.has params p = false ->
  exists msg, execute gh http params w = (Ok (error_result msg), w).
Proof.
  intros Hin Hhas. unfold execute, execute_try.
  destruct (filter (fun param => negb (Dict.has params param)) required_params) eqn:Hf.
  - assert (Hp : In p (filter (fun param => negb (Dict.has params param)) required_params)).
    { apply filter_In. split; [assumption |]. now rewrite Hhas. }
    rewrite Hf in Hp. contradiction.
  - cbv [ToolM.ret]. eauto.
Qed.

End GitHubFacts.

(** * The claims *)




(** C2, as the code has it.  What [run_agent] returns is either the output
    of the ["finish"] decision as the oracle gave it (the empty mapping when
    it has none; it is not checked against [AgentOutput]), or one of the
    controller's error results, which is a mapping with the one field
    [error].  So a returned mapping without an [error] field always comes
    from a ["finish"]. *)
Theorem returned_value_is_output_or_error :
  forall (W : Type) (opper : Opper W) (self : AgentRunnerService W)
         (agent_id : string) (agent input_data : PyDict) (w : W),
  exists out,
    run_agent opper self agent_id agent input_data w = Some out
    /\ forall d, result out = Returned d ->
         (Trace.finished_with (trace out) d \/ Trace.controller_error self d)
         /\ (Trace.controller_error self d ->
             exists msg, d = [("error", PStr msg)]
                         /\ ErrorResult_shape d = true /\ FinalOutput_shape d = false)
         /\ (ErrorResult_shape d = false -> Trace.finished_with (trace out) d).
Proof.
  intros W opper self agent_id agent input_data w.
  destruct (run_agent_result opper self agent agent_id input_data w) as (out & Hrun & Hres & _).
  exists out. split; [assumption |].
  intros d Hd. rewrite Hd in Hres.
  assert (Hshape : Trace.controller_error self d ->
                   exists msg, d = [("error", PStr msg)]
                               /\ ErrorResult_shape d = true /\ FinalOutput_shape d = false).
  { intros He. destruct (controller_error_shape self d He) as (msg & ->).
    exists msg. repeat split. }
  split; [exact Hres |]. split; [exact Hshape |].
  intros Hno. destruct Hres as [Hf | He]; [exact Hf |].
  destruct (Hshape He) as (msg & _ & Hyes & _). congruence.
Qed.

(** C2 fails on the code: a ["finish"] with no output returns the empty
    mapping, which has neither shape; and a ["finish"] whose output has an
    [error] field returns it, a success that the caller's test takes for a
    failure. *)
Lemma returned_shape_counterexample :
  (exists out,
     run_agent (Fake.steady 0.5 (Fake.finish None)) (Fake.runner "fetch" Fake.echo 15)
       "github_pr_reviewer" Fake.the_agent Fake.pr_params 0%nat = Some out
     /\ result out = Returned []
     /\ FinalOutput_shape [] = false /\ ErrorResult_shape [] = false)
  /\ (exists out,
        run_agent (Fake.steady 0.5 (Fake.finish (Some [("error", PStr "none")])))
          (Fake.runner "fetch" Fake.echo 15)
          "github_pr_reviewer" Fake.the_agent Fake.pr_params 0%nat = Some out
        /\ result out = Returned [("error", PStr "none")]
        /\ Trace.action_replies (trace out) = [Ok (Fake.finish (Some [("error", PStr "none")]))]
        /\ ErrorResult_shape [("error", PStr "none")] = true).
Proof.
  split; (eexists; split; [vm_compute; reflexivity |]); cbn [result trace]; repeat split.
Qed.

(** The amended C2 on a run that finishes with the review. *)
Lemma returned_value_is_output_or_error_witness :
  exists out,
    run_agent (Fake.steady 0.5 (Fake.finish (Some Fake.the_review)))
      (Fake.runner "fetch" Fake.echo 15)
      "github_pr_reviewer" Fake.the_agent Fake.pr_params 0%nat = Some out
    /\ result out = Returned Fake.the_review
    /\ ErrorResult_shape Fake.the_review = false
    /\ Trace.finished_with (trace out) Fake.the_review.
Proof.
  destruct (returned_value_is_output_or_error nat
              (Fake.steady 0.5 (Fake.finish (Some Fake.the_review)))
              (Fake.runner "fetch" Fake.echo 15)
              "github_pr_reviewer" Fake.the_agent Fake.pr_params 0%nat)
    as (out & Hrun & H).
  compute_run Hrun Hval. exists out.
  assert (Hres : result out = Returned Fake.the_review) by (subst out; reflexivity).
  split; [exact Hrun |]. split; [exact Hres |]. split; [reflexivity |].
  exact (proj2 (proj2 (H _ Hres)) eq_refl).
Defined.



(** C4. In every cycle in which a registered tool is invoked and raises,
    the run ends there with the error result
    [{"error": "Error executing tool <name>: <text of the exception>"}],
    whose text contains the exception's own, and the context is the one the
    cycle started with: no observation and no intermediate result was
    recorded for the step. *)
Theorem tool_exception_ends_run :
  forall (W : Type) (opper : Opper W) (self : AgentRunnerService W)
         (agent_id : string) (agent input_data : PyDict) (w : W),
  exists out,
    run_agent opper self agent_id agent input_data w = Some out
    /\ forall n evs name params e,
         In (Cycle n evs) (trace out) ->
         In (ToolCall name params (Raised e)) evs ->
         Dict.has (tools self) name = true
         /\ result out = Returned (tool_execution_error name e)
         /\ (exists msg, result out = Returned [("error", PStr msg)]
                         /\ PyText.contains (exc_str e) msg = true)
         /\ (exists ctx rest, evs = CycleInput ctx :: rest
                              /\ context (final out) = ctx
                              /\ current_step ctx = n)
         /\ (exists pre, trace out = pre ++ [Cycle n evs]).
Proof.
  intros W opper self agent_id agent input_data w.
  destruct (run_agent_cycle_in opper self agent agent_id input_data w) as (out & Hrun & Hcyc).
  exists out. split; [assumption |].
  intros n evs name params e Hin Hev.
  destruct (Hcyc _ _ Hin) as (pre & post & st_n & f & st_n' & Heq & Hn & Hmax & Hstep & HC & Hrest).
  inversion HC; subst; find_event Hev.
  destruct Hrest as (-> & Hres & Hfin).
  repeat split.
  - unfold Dict.has.
    match goal with H : Dict.get (tools self) name = Some _ |- _ => now rewrite H end.
  - now rewrite <- Hres.
  - destruct (tool_execution_shows name e) as (msg & Hmsg & Hc).
    exists msg. rewrite <- Hmsg. now rewrite <- Hres.
  - eexists _, _. split; [reflexivity |]. rewrite Hfin. cbn. auto.
  - eauto.
Qed.

(** C4 on a run: the tool [fetch] raises in the first cycle. *)
Lemma tool_exception_ends_run_witness :
  exists out evs,
    run_agent (Fake.steady 0.5 (Fake.use_tool "fetch" Fake.pr_params))
      (Fake.runner "fetch" (Fake.broken "boom") 15)
      "github_pr_reviewer" Fake.the_agent Fake.pr_params 0%nat = Some out
    /\ In (Cycle 1 evs) (trace out)
    /\ In (ToolCall "fetch" Fake.pr_params (Raised (Exception "RuntimeError" "boom"))) evs
    /\ result out = Returned [("error", PStr "Error executing tool fetch: boom")]
    /\ last_observation (context (final out)) = None
    /\ intermediate_results (context (final out)) = [].
Proof.
  destruct (tool_exception_ends_run nat
              (Fake.steady 0.5 (Fake.use_tool "fetch" Fake.pr_params))
              (Fake.runner "fetch" (Fake.broken "boom") 15)
              "github_pr_reviewer" Fake.the_agent Fake.pr_params 0%nat)
    as (out & Hrun & H).
  compute_run Hrun Hval. exists out. eexists. split; [exact Hrun |].
  assert (Hin : In (Cycle 1 (Trace.cycle_events (nth 1 (trace out) (RootInput []))))
                  (trace out)).
  { subst out. cbn. right. left. reflexivity. }
  assert (Hev : In (ToolCall "fetch" Fake.pr_params (Raised (Exception "RuntimeError" "boom")))
                  (Trace.cycle_events (nth 1 (trace out) (RootInput [])))).
  { subst out. cbn. do 4 right. left. reflexivity. }
  destruct (H _ _ _ _ _ Hin Hev) as (_ & Hres & _ & (ctx & rest & Hevs & Hctx & _) & _).
  split; [exact Hin |]. split; [exact Hev |]. split; [exact Hres |].
  rewrite Hctx. subst out. cbn in Hevs. injection Hevs as <- _. split; reflexivity.
Defined.

(** C5, as the code has it.  [AgentAction] takes any text as
    [action_type], and [run_agent] tests it only for ["finish"] and
    ["use_tool"]: after a decision of any other kind the cycle ends there,
    with no tool call and no output, and the loop goes on from the same
    context, to the next cycle or to the end of the budget. *)
Theorem unrecognized_action_is_skipped :
  forall (W : Type) (opper : Opper W) (self : AgentRunnerService W)
         (agent_id : string) (agent input_data : PyDict) (w : W),
  exists out,
    run_agent opper self agent_id agent input_data w = Some out
    /\ forall pre n evs post req action,
         trace out = pre ++ Cycle n evs :: post ->
         In (ActionCall req (Ok action)) evs ->
         action_type action <> "finish" ->
         action_type action <> "use_tool" ->
         exists ctx rreq rreply score,
           evs = [CycleInput ctx; ReasoningCall rreq rreply;
                  Metric "reasoning_confidence" score; ActionCall req (Ok action)]
           /\ Trace.goes_on self n ctx post out.
Proof.
  intros W opper self agent_id agent input_data w.
  destruct (run_agent_cycles opper self agent agent_id input_data w) as (out & Hrun & Hcyc).
  exists out. split; [assumption |].
  intros pre n evs post req action Heq Hev Hfin Huse.
  pose proof (selected_tool_other action Huse) as Hsel.
  destruct (Hcyc _ _ _ _ Heq)
    as (root & cycles & st_n & f & st_n' & -> & Hn & Hmax & Hstep & HC & Hrest).
  inversion HC; subst; find_event Hev; try congruence.
  eexists _, _, _, _. split; [reflexivity |].
  apply (loop_run_goes_on opper self agent _ _ _ _ Hrest).
Qed.

(** C5 fails on the code: after the decision ["think"] in cycle 1 the run
    goes through cycle 2 and ends on the step budget. *)
Lemma unrecognized_action_counterexample :
  exists out,
    run_agent (Fake.steady 0.5 Fake.ponder) (Fake.runner "fetch" Fake.echo 2)
      "github_pr_reviewer" Fake.the_agent Fake.pr_params 0%nat = Some out
    /\ action_type Fake.ponder = "think"
    /\ Trace.action_replies (trace out) = [Ok Fake.ponder; Ok Fake.ponder]
    /\ Trace.cycle_numbers (trace out) = [1; 2]
    /\ result out = Returned [("error", PStr "Reached maximum number of steps (2)")]
    /\ ~ (exists e, result out = RaisedOut e).
Proof.
  eexists. split; [vm_compute; reflexivity |].
  cbn [result trace]. repeat split. intros [e He]. discriminate He.
Qed.

(** The amended C5 on that run. *)
Lemma unrecognized_action_is_skipped_witness :
  exists out pre evs post req,
    run_agent (Fake.steady 0.5 Fake.ponder) (Fake.runner "fetch" Fake.echo 2)
      "github_pr_reviewer" Fake.the_agent Fake.pr_params 0%nat = Some out
    /\ trace out = pre ++ Cycle 1 evs :: post
    /\ In (ActionCall req (Ok Fake.ponder)) evs
    /\ exists ctx, Trace.goes_on (Fake.runner (W:=nat) "fetch" Fake.echo 2) 1 ctx post out.
Proof.
  destruct (unrecognized_action_is_skipped nat
              (Fake.steady 0.5 Fake.ponder) (Fake.runner "fetch" Fake.echo 2)
              "github_pr_reviewer" Fake.the_agent Fake.pr_params 0%nat)
    as (out & Hrun & H).
  compute_run Hrun Hval. exists out.
  exists [nth 0 (trace out) (RootInput [])],
         (Trace.cycle_events (nth 1 (trace out) (RootInput []))),
         (skipn 2 (trace out)).
  eexists.
  assert (Heq : trace out
                = [nth 0 (trace out) (RootInput [])]
                  ++ Cycle 1 (Trace.cycle_events (nth 1 (trace out) (RootInput [])))
                       :: skipn 2 (trace out)).
  { subst out. reflexivity. }
  assert (Hev : In (nth 3 (Trace.cycle_events (nth 1 (trace out) (RootInput [])))
                      (CycleOutput PNone))
                  (Trace.cycle_events (nth 1 (trace out) (RootInput [])))).
  { subst out. cbn. do 3 right. left. reflexivity. }
  rewrite Hval in Hev at 1. cbn [trace nth Trace.cycle_events] in Hev.
  split; [exact Hrun |]. split; [exact Heq |]. split; [exact Hev |].
  destruct (H _ _ _ _ _ _ Heq Hev) as (ctx & _ & _ & _ & _ & Hgo);
    [discriminate | discriminate |].
  exists ctx. exact Hgo.
Defined.

(** C6. In every cycle in which the decision is to use a tool whose name is
    not registered, the run ends in that cycle with the error result
    [{"error": "Tool '<name>' not found. Available tools: [...]"}]: its text
    shows every registered name, no tool is called, the context is left as
    the cycle found it, and the cycle is the last span of the trace. *)
Theorem unknown_tool_ends_run :
  forall (W : Type) (opper : Opper W) (self : AgentRunnerService W)
         (agent_id : string) (agent input_data : PyDict) (w : W),
  exists out,
    run_agent opper self agent_id agent input_data w = Some out
    /\ forall n evs req action name,
         In (Cycle n evs) (trace out) ->
         In (ActionCall req (Ok action)) evs ->
         action_type action = "use_tool" ->
         tool_name action = Some name ->
         name <> "" ->
         Dict.has (tools self) name = false ->
         result out = Returned (tool_not_found_error (Dict.keys (tools self)) name)
         /\ (forall t, In t (Dict.keys (tools self)) ->
               exists msg, result out = Returned [("error", PStr msg)]
                           /\ PyText.contains (PyText.repr_str t) msg = true)
         /\ (forall t params reply, ~ In (ToolCall t params reply) evs)
         /\ (exists front,
               evs = front ++ [ActionCall req (Ok action);
                               RootOutput (tool_not_found_error (Dict.keys (tools self)) name)])
         /\ (exists ctx rest, evs = CycleInput ctx :: rest /\ context (final out) = ctx)
         /\ (exists pre, trace out = pre ++ [Cycle n evs]).
Proof.
  intros W opper self agent_id agent input_data w.
  destruct (run_agent_cycle_in opper self agent agent_id input_data w) as (out & Hrun & Hcyc).
  exists out. split; [assumption |].
  intros n evs req action name Hin Hev Htype Hname Hne Hhas.
  assert (Hsel : selected_tool action = Some name) by (apply selected_tool_some; auto).
  assert (Hget : Dict.get (tools self) name = None).
  { unfold Dict.has in Hhas. destruct (Dict.get (tools self) name); [discriminate | reflexivity]. }
  destruct (Hcyc _ _ Hin) as (pre & post & st_n & f & st_n' & Heq & Hn & Hmax & Hstep & HC & Hrest).
  inversion HC; subst; find_event Hev; try congruence.
  assert (name0 = name) by congruence. subst name0.
  destruct Hrest as (-> & Hres & Hfin).
  split; [now rewrite <- Hres |].
  split.
  { intros t Ht. destruct (tool_not_found_lists _ name t Ht) as (msg & Hmsg & Hc).
    exists msg. rewrite <- Hmsg. now rewrite <- Hres. }
  split.
  { intros t params r Ht. find_event Ht. }
  split.
  { eexists [_; _; _]. reflexivity. }
  split.
  { eexists _, _. split; [reflexivity |]. now rewrite Hfin. }
  eauto.
Qed.

(** C6 on a run: the decision names [nope], the registry has [fetch]. *)
Lemma unknown_tool_ends_run_witness :
  exists out evs req,
    run_agent (Fake.steady 0.5 (Fake.use_tool "nope" []))
      (Fake.runner "fetch" Fake.echo 15)
      "github_pr_reviewer" Fake.the_agent Fake.pr_params 0%nat = Some out
    /\ In (Cycle 1 evs) (trace out)
    /\ In (ActionCall req (Ok (Fake.use_tool "nope" []))) evs
    /\ result out
       = Returned [("error", PStr "Tool 'nope' not found. Available tools: ['fetch']")].
Proof.
  destruct (unknown_tool_ends_run nat
              (Fake.steady 0.5 (Fake.use_tool "nope" []))
              (Fake.runner "fetch" Fake.echo 15)
              "github_pr_reviewer" Fake.the_agent Fake.pr_params 0%nat)
    as (out & Hrun & H).
  compute_run Hrun Hval. exists out. eexists. eexists.
  split; [exact Hrun |].
  assert (Hin : In (Cycle 1 (Trace.cycle_events (nth 1 (trace out) (RootInput []))))
                  (trace out)).
  { subst out. cbn. right. left. reflexivity. }
  assert (Hev : In (nth 3 (Trace.cycle_events (nth 1 (trace out) (RootInput [])))
                      (CycleOutput PNone))
                  (Trace.cycle_events (nth 1 (trace out) (RootInput [])))).
  { subst out. cbn. do 3 right. left. reflexivity. }
  rewrite Hval in Hev at 1. cbn [trace nth Trace.cycle_events] in Hev.
  split; [exact Hin |]. split; [exact Hev |].
  refine (proj1 (H _ _ _ _ "nope" Hin Hev _ _ _ _)); [reflexivity .. | discriminate | reflexivity].
Defined.

(** C7. If the decision of the first cycle is to finish with an output
    mapping (such as [{review_summary: "ok", overall_assessment: "good"}]),
    [run_agent] returns that mapping as it is, and the whole run is that one
    cycle: one reasoning call, one decision call, no tool call. *)
Theorem finish_on_first_cycle :
  forall (W : Type) (opper : Opper W) (self : AgentRunnerService W)
         (agent_id : string) (agent input_data : PyDict) (w : W),
  exists out,
    run_agent opper self agent_id agent input_data w = Some out
    /\ forall evs req action d,
         In (Cycle 1 evs) (trace out) ->
         In (ActionCall req (Ok action)) evs ->
         action_type action = "finish" ->
         output action = Some d ->
         result out = Returned d
         /\ List.length (Trace.reasoning_replies (trace out)) = 1%nat
         /\ List.length (Trace.action_replies (trace out)) = 1%nat
         /\ List.length (Trace.tool_replies (trace out)) = 0%nat
         /\ exists root, trace out = [RootInput root; Cycle 1 evs].
Proof.
  intros W opper self agent_id agent input_data w.
  destruct (run_agent_cycles opper self agent agent_id input_data w) as (out & Hrun & Hcyc).
  exists out. split; [assumption |].
  intros evs req action d Hin Hev Htype Hout.
  apply in_split in Hin as (pre & post & Heq).
  destruct (Hcyc _ _ _ _ Heq)
    as (root & cycles & st_n & f & st_n' & -> & Hn & Hmax & Hstep & HC & Hrest).
  destruct cycles as [| c cycles]; [| cbn [List.length] in Hn; lia].
  inversion HC; subst; find_event Hev; try congruence.
  destruct Hrest as (-> & Hres & Hfin).
  rewrite Heq, Hres, Hout. cbn. eauto 6.
Qed.

(** C7 on a run: the first decision is to finish with the review
    [{review_summary: "ok", overall_assessment: "good"}]. *)
Lemma finish_on_first_cycle_witness :
  exists out evs req,
    run_agent (Fake.steady 0.5 (Fake.finish (Some Fake.the_review)))
      (Fake.runner "fetch" Fake.echo 15)
      "github_pr_reviewer" Fake.the_agent Fake.pr_params 0%nat = Some out
    /\ In (Cycle 1 evs) (trace out)
    /\ In (ActionCall req (Ok (Fake.finish (Some Fake.the_review)))) evs
    /\ result out
       = Returned [("review_summary", PStr "ok"); ("overall_assessment", PStr "good")]
    /\ List.length (Trace.reasoning_replies (trace out)) = 1%nat
    /\ List.length (Trace.action_replies (trace out)) = 1%nat
    /\ List.length (Trace.tool_replies (trace out)) = 0%nat.
Proof.
  destruct (finish_on_first_cycle nat
              (Fake.steady 0.5 (Fake.finish (Some Fake.the_review)))
              (Fake.runner "fetch" Fake.echo 15)
              "github_pr_reviewer" Fake.the_agent Fake.pr_params 0%nat)
    as (out & Hrun & H).
  compute_run Hrun Hval. exists out. eexists. eexists.
  split; [exact Hrun |].
  assert (Hin : In (Cycle 1 (Trace.cycle_events (nth 1 (trace out) (RootInput []))))
                  (trace out)).
  { subst out. cbn. right. left. reflexivity. }
  assert (Hev : In (nth 3 (Trace.cycle_events (nth 1 (trace out) (RootInput [])))
                      (CycleOutput PNone))
                  (Trace.cycle_events (nth 1 (trace out) (RootInput [])))).
  { subst out. cbn. do 3 right. left. reflexivity. }
  rewrite Hval in Hev at 1. cbn [trace nth Trace.cycle_events] in Hev.
  split; [exact Hin |]. split; [exact Hev |].
  destruct (H _ _ _ Fake.the_review Hin Hev eq_refl eq_refl) as (Hres & Hr & Ha & Ht & _).
  auto.
Defined.



(** C9. The result of a run is a function of the answers it received:
    it is [replay] of the registered names, the budget and the answers of
    the reasoning calls, of the decisions and of the tools.  So two runs of
    the same agent on the same input, under controllers with the same
    registered names and budget, in whatever worlds, that receive the same
    answers end with the same result. *)
Theorem same_answers_same_result :
  forall (W1 W2 : Type) (opper1 : Opper W1) (opper2 : Opper W2)
         (self1 : AgentRunnerService W1) (self2 : AgentRunnerService W2)
         (agent_id : string) (agent input_data : PyDict) (w1 : W1) (w2 : W2),
  exists out1 out2,
    run_agent opper1 self1 agent_id agent input_data w1 = Some out1
    /\ run_agent opper2 self2 agent_id agent input_data w2 = Some out2
    /\ result out1
       = replay (Dict.keys (tools self1)) (max_steps self1) (Z.to_nat (max_steps self1))
           (Trace.reasoning_replies (trace out1)) (Trace.action_replies (trace out1))
           (Trace.tool_replies (trace out1))
    /\ (Dict.keys (tools self1) = Dict.keys (tools self2) ->
        max_steps self1 = max_steps self2 ->
        Trace.reasoning_replies (trace out1) = Trace.reasoning_replies (trace out2) ->
        Trace.action_replies (trace out1) = Trace.action_replies (trace out2) ->
        Trace.tool_replies (trace out1) = Trace.tool_replies (trace out2) ->
        result out1 = result out2).
Proof.
  intros W1 W2 opper1 opper2 self1 self2 agent_id agent input_data w1 w2.
  destruct (run_agent_run opper1 self1 agent agent_id input_data w1)
    as (out1 & root1 & spans1 & Hrun1 & Htrace1 & Hloop1).
  destruct (run_agent_run opper2 self2 agent agent_id input_data w2)
    as (out2 & root2 & spans2 & Hrun2 & Htrace2 & Hloop2).
  exists out1, out2. split; [assumption |]. split; [assumption |].
  apply loop_run_replay in Hloop1. apply loop_run_replay in Hloop2.
  rewrite Z.sub_0_r in Hloop1, Hloop2.
  rewrite Htrace1, Htrace2.
  change (Trace.reasoning_replies (RootInput root1 :: spans1))
    with (Trace.reasoning_replies spans1).
  change (Trace.action_replies (RootInput root1 :: spans1)) with (Trace.action_replies spans1).
  change (Trace.tool_replies (RootInput root1 :: spans1)) with (Trace.tool_replies spans1).
  change (Trace.reasoning_replies (RootInput root2 :: spans2))
    with (Trace.reasoning_replies spans2).
  change (Trace.action_replies (RootInput root2 :: spans2)) with (Trace.action_replies spans2).
  change (Trace.tool_replies (RootInput root2 :: spans2)) with (Trace.tool_replies spans2).
  split; [exact Hloop1 |].
  intros Hkeys Hmax Hr Ha Ht.
  rewrite Hloop1, Hloop2, Hkeys, Hmax, Hr, Ha, Ht. reflexivity.
Qed.

(** C9 on two runs: an oracle that counts its calls and a scripted one give
    the same answers, in worlds of different kinds. *)
Lemma same_answers_same_result_witness :
  exists out1 out2,
    run_agent (Fake.steady 0.5 (Fake.use_tool "fetch" Fake.pr_params))
      (Fake.runner "fetch" Fake.echo 2)
      "github_pr_reviewer" Fake.the_agent Fake.pr_params 0%nat = Some out1
    /\ run_agent Fake.scripted (Fake.runner "fetch" Fake.echo 2)
         "github_pr_reviewer" Fake.the_agent Fake.pr_params
         {| Fake.reasonings := [Ok ("thinking", 0.5%float); Ok ("thinking", 0.5%float)];
            Fake.actions := [Ok (Fake.use_tool "fetch" Fake.pr_params);
                             Ok (Fake.use_tool "fetch" Fake.pr_params)] |} = Some out2
    /\ Trace.reasoning_replies (trace out1) = Trace.reasoning_replies (trace out2)
    /\ Trace.action_replies (trace out1) = Trace.action_replies (trace out2)
    /\ Trace.tool_replies (trace out1) = Trace.tool_replies (trace out2)
    /\ world (final out1) = 4%nat
    /\ result out1 = result out2.
Proof.
  destruct (same_answers_same_result nat Fake.Script
              (Fake.steady 0.5 (Fake.use_tool "fetch" Fake.pr_params)) Fake.scripted
              (Fake.runner "fetch" Fake.echo 2) (Fake.runner "fetch" Fake.echo 2)
              "github_pr_reviewer" Fake.the_agent Fake.pr_params 0%nat
              {| Fake.reasonings := [Ok ("thinking", 0.5%float); Ok ("thinking", 0.5%float)];
                 Fake.actions := [Ok (Fake.use_tool "fetch" Fake.pr_params);
                                  Ok (Fake.use_tool "fetch" Fake.pr_params)] |})
    as (out1 & out2 & Hrun1 & Hrun2 & _ & H).
  compute_run Hrun1 Hval1. compute_run Hrun2 Hval2.
  assert (Hr : Trace.reasoning_replies (trace out1) = Trace.reasoning_replies (trace out2))
    by (subst out1 out2; reflexivity).
  assert (Ha : Trace.action_replies (trace out1) = Trace.action_replies (trace out2))
    by (subst out1 out2; reflexivity).
  assert (Ht : Trace.tool_replies (trace out1) = Trace.tool_replies (trace out2))
    by (subst out1 out2; reflexivity).
  exists out1, out2.
  split; [exact Hrun1 |]. split; [exact Hrun2 |].
  split; [exact Hr |]. split; [exact Ha |]. split; [exact Ht |].
  split; [subst out1; reflexivity |].
  exact (H eq_refl eq_refl Hr Ha Ht).
Defined.



(** * Further properties of the code *)

(** ** Mappings and keys *)

Section DictFacts.
Context {V : Type}.

Lemma dict_get_set_same (d : list (string * V)) (k : string) (v : V) :
  Dict.get (Dict.set d k v) k = Some v.
Proof.
  induction d as [| [k' v'] d IH]; cbn.
  - now rewrite String.eqb_refl.
  - destruct (String.eqb k k') eqn:E; cbn.
    + now rewrite String.eqb_refl.
    + now rewrite E.
Qed.

Lemma dict_get_set_other (d : list (string * V)) (k k' : string) (v : V) :
  k <> k' -> Dict.get (Dict.set d k v) k' = Dict.get d k'.
Proof.
  intros Hne. induction d as [| [k0 v0] d IH]; cbn.
  - destruct (String.eqb k' k) eqn:E; [| reflexivity].
    apply String.eqb_eq in E. congruence.
  - destruct (String.eqb k k0) eqn:E; cbn.
    + apply String.eqb_eq in E. subst k0.
      destruct (String.eqb k' k) eqn:E'; [| reflexivity].
      apply String.eqb_eq in E'. congruence.
    + now rewrite IH.
Qed.

Lemma dict_set_fresh (d : list (string * V)) (k : string) (v : V) :
  Dict.get d k = None -> Dict.set d k v = d ++ [(k, v)].
Proof.
  induction d as [| [k0 v0] d IH]; cbn; [reflexivity |].
  destruct (String.eqb k k0); [discriminate |]. intros H. now rewrite IH.
Qed.
End DictFacts.

(** [str] of an [int] tells the integers apart, and so do the step keys. *)
Lemma str_int_inj (a b : Z) : PyText.str_int a = PyText.str_int b -> a = b.
Proof.
  unfold PyText.str_int. intros H.
  assert (Hn : forall z, Z.to_int z <> Decimal.Pos Decimal.Nil
                         /\ Z.to_int z <> Decimal.Neg Decimal.Nil).
  { intros [| p | p]; cbn; split; try discriminate;
      intros [= E]; exact (DecimalPos.Unsigned.to_uint_nonnil p E). }
  apply DecimalZ.to_int_inj.
  assert (E : Some (Z.to_int a) = Some (Z.to_int b)).
  { rewrite <- (NilZero.isi (Z.to_int a)), <- (NilZero.isi (Z.to_int b));
      try apply Hn. now rewrite H. }
  now injection E.
Qed.

Lemma step_key_inj (a b : Z) : step_key a = step_key b -> a = b.
Proof. unfold step_key. cbn. intros [= H]. now apply str_int_inj. Qed.

(** ** The models of [agent_runner.py] *)



(** X2. The pass over the tool parameters keeps the keys in their order,
    puts the dump of every value that has [model_dump] in its place,
    leaves every other value as it is, and leaves no value with
    [model_dump] at the top of the mapping; a second pass changes
    nothing. *)
Theorem dump_models_normalizes :
  forall params : PyDict,
    Dict.keys (dump_models params) = Dict.keys params
    /\ (forall k t r d,
          Dict.get params k = Some (PModel t r d) ->
          Dict.get (dump_models params) k = Some (PDict d))
    /\ (forall k v,
          Dict.get params k = Some v ->
          (forall t r d, v <> PModel t r d) ->
          Dict.get (dump_models params) k = Some v)
    /\ (forall k v t r d, In (k, v) (dump_models params) -> v <> PModel t r d)
    /\ dump_models (dump_models params) = dump_models params.
Proof.
  intros params. unfold dump_models, Dict.keys.
  split; [| split; [| split; [| split]]].
  - rewrite map_map. apply map_ext. intros [k v]. destruct v; reflexivity.
  - intros k t r d. induction params as [| [k0 v0] params IH]; cbn; [discriminate |].
    destruct v0; cbn; destruct (String.eqb k k0); auto; intros [= <- <- <-]; reflexivity.
  - intros k v. induction params as [| [k0 v0] params IH]; cbn; [discriminate |].
    intros Hget Hplain.
    destruct v0; cbn; destruct (String.eqb k k0); auto.
    injection Hget as <-. exfalso. eapply Hplain. reflexivity.
  - intros k v t r d Hin. apply in_map_iff in Hin as ([k0 v0] & Heq & _).
    destruct v0; cbn in Heq; injection Heq as <- <-; discriminate.
  - rewrite map_map. apply map_ext. intros [k v]. destruct v; reflexivity.
Qed.

(** X2 on parameters: a model at the top is dumped, one inside a list is
    passed on as it is. *)
Lemma dump_models_normalizes_witness :
  Dict.get (dump_models [("pr", PModel "GitHubPRToolInput" "pr" Fake.pr_params);
                         ("all", PList [PModel "GitHubPRToolInput" "pr" Fake.pr_params])])
    "pr" = Some (PDict Fake.pr_params)
  /\ Dict.get (dump_models [("pr", PModel "GitHubPRToolInput" "pr" Fake.pr_params);
                            ("all", PList [PModel "GitHubPRToolInput" "pr" Fake.pr_params])])
       "all" = Some (PList [PModel "GitHubPRToolInput" "pr" Fake.pr_params]).
Proof.
  destruct (dump_models_normalizes
              [("pr", PModel "GitHubPRToolInput" "pr" Fake.pr_params);
               ("all", PList [PModel "GitHubPRToolInput" "pr" Fake.pr_params])])
    as (_ & Hdump & Hkeep & _).
  split.
  - apply (Hdump "pr" "GitHubPRToolInput" "pr" Fake.pr_params). reflexivity.
  - apply Hkeep; [reflexivity | discriminate].
Defined.

(** ** The state of a run *)

Section StateFacts.
Context {W : Type}.
Variable opper : Opper W.
Variable self : AgentRunnerService W.
Variable agent : PyDict.

Local Abbreviation cycle_run := (CycleRun opper self agent).
Local Abbreviation loop_run := (LoopRun opper self agent).

(** A cycle changes the context only by recording the one result a tool
    returned in it. *)
Lemma cycle_run_context n st f evs st' :
  cycle_run n st (f, evs, st') ->
  (Observed.tool_results evs = [] /\ context st' = context st)
  \/ (exists result,
        Observed.tool_results evs = [result]
        /\ context st' = record_observation (context st) n result
        /\ f = Go tt).
Proof. inversion 1; subst; cbn; eauto. Qed.

(** What holds of the context a run starts with, and is kept by the two
    ways the loop changes a context, holds of the context of every cycle
    and of the context the run ends with. *)
Lemma loop_run_invariant (I : Context -> Prop) :
  (forall c n, I c -> I (set_current_step c n)) ->
  (forall c n r, I c -> I (record_observation c n r)) ->
  forall k st r spans st_end,
    loop_run k st r spans st_end ->
    I (context st) ->
    I (context st_end)
    /\ forall n evs, In (Cycle n evs) spans ->
         exists st_n f st_n',
           I (context st_n) /\ current_step (context st_n) = n
           /\ cycle_run n st_n (f, evs, st_n').
Proof.
  intros Hstep Hrec.
  assert (Hcyc : forall n st f evs st',
             cycle_run n st (f, evs, st') -> I (context st) -> I (context st')).
  { intros n st f evs st' HC HI.
    destruct (cycle_run_context _ _ _ _ _ HC) as [(_ & ->) | (res & _ & -> & _)]; auto. }
  induction 1 as [k st Hk | k st r evs0 st' Hk HC | k st evs0 st' r spans st'' Hk HC HL IH];
    intros HI.
  - split; [assumption |]. intros n evs [Hin | []]. discriminate Hin.
  - assert (HI' : I (context (enter_cycle st (k + 1)))) by (cbn; auto).
    split; [eapply Hcyc; eauto |].
    intros n evs [[= <- <-] | []].
    exists (enter_cycle st (k + 1)), (Leave r), st'.
    split; [exact HI' |]. split; [reflexivity | exact HC].
  - assert (HI' : I (context (enter_cycle st (k + 1)))) by (cbn; auto).
    destruct IH as (Hend & Hall); [eapply Hcyc; eauto |].
    split; [assumption |].
    intros n evs [[= <- <-] | Hin]; [| auto].
    exists (enter_cycle st (k + 1)), (Go tt), st'.
    split; [exact HI' |]. split; [reflexivity | exact HC].
Qed.

(** The keys of the steps to come are not touched before their cycle, and
    no other key is ever touched. *)
Lemma loop_run_keeps k st r spans st' :
  loop_run k st r spans st' ->
  forall key, (forall j, k < j -> key <> step_key j) ->
    Dict.get (intermediate_results (context st')) key
    = Dict.get (intermediate_results (context st)) key.
Proof.
  induction 1 as [k st Hk | k st r evs0 st1 Hk HC | k st evs0 st1 r spans st2 Hk HC HL IH];
    intros key Hkey.
  - reflexivity.
  - destruct (cycle_run_context _ _ _ _ _ HC) as [(_ & ->) | (res & _ & _ & Hf)];
      [reflexivity | discriminate Hf].
  - rewrite IH by (intros j Hj; apply Hkey; lia).
    destruct (cycle_run_context _ _ _ _ _ HC) as [(_ & ->) | (res & _ & -> & _)];
      [reflexivity |].
    cbn. apply dict_get_set_other. intros E. apply (Hkey (k + 1)); [lia | symmetry; exact E].
Qed.

(** The state a run ends with, read off the results of its tools. *)
Lemma loop_run_state k st r spans st' :
  loop_run k st r spans st' ->
  (forall j, k < j -> Dict.get (intermediate_results (context st)) (step_key j) = None) ->
  intermediate_results (context st')
  = intermediate_results (context st) ++ map Observed.entry (Observed.observations spans)
  /\ last_observation (context st')
     = List.last (map (fun o => Some (PyValue.str (snd o))) (Observed.observations spans))
         (last_observation (context st))
  /\ forall n res, In (n, res) (Observed.observations spans) ->
       Dict.get (intermediate_results (context st')) (step_key n) = Some res.
Proof.
  assert (Hlast : forall (A : Type) (a d : A) (l : list A), List.last (a :: l) d = List.last l a).
  { intros A a d l. revert a d. induction l as [| b l IHl]; intros a d; [reflexivity |].
    change (List.last (a :: b :: l) d) with (List.last (b :: l) d).
    now rewrite (IHl b d), (IHl b a). }
  induction 1 as [k st Hk | k st r evs0 st1 Hk HC | k st evs0 st1 r spans st2 Hk HC HL IH];
    intros Hfresh.
  - cbn. rewrite app_nil_r. repeat split. intros n res [].
  - destruct (cycle_run_context _ _ _ _ _ HC) as [(Hnone & ->) | (res & _ & _ & Hf)];
      [| discriminate Hf].
    unfold Observed.observations. cbn. rewrite Hnone. cbn. rewrite app_nil_r.
    repeat split. intros n res [].
  - unfold Observed.observations in *. cbn [flat_map].
    destruct (cycle_run_context _ _ _ _ _ HC) as [(Hnone & Hctx) | (res & Hone & Hctx & _)].
    + rewrite Hnone. cbn [map app].
      destruct IH as (Hir & Hlo & Hget); [rewrite Hctx; intros j Hj; apply Hfresh; lia |].
      rewrite Hctx in Hir, Hlo. cbn in Hir, Hlo. auto.
    + rewrite Hone. cbn [map app].
      assert (Hset : intermediate_results (context st1)
                     = intermediate_results (context st) ++ [Observed.entry (k + 1, res)]).
      { rewrite Hctx. apply dict_set_fresh. apply (Hfresh (k + 1)). lia. }
      destruct IH as (Hir & Hlo & Hget).
      { intros j Hj. rewrite Hctx.
        change (Dict.get (Dict.set (intermediate_results (context st)) (step_key (k + 1)) res)
                  (step_key j) = None).
        rewrite dict_get_set_other; [apply Hfresh; lia |].
        intros E. apply step_key_inj in E. lia. }
      split; [rewrite Hir, Hset, <- app_assoc; reflexivity |].
      split.
      { rewrite Hlo, Hctx. cbn [map]. rewrite Hlast. reflexivity. }
      intros n r0 [[= <- <-] | Hin]; [| auto].
      rewrite (loop_run_keeps _ _ _ _ _ HL).
      * rewrite Hctx. apply dict_get_set_same.
      * intros j Hj E. apply step_key_inj in E. lia.
Qed.

(** The step counter a run ends with is the number of cycles it made. *)
Lemma loop_run_counter k st r spans st' :
  loop_run k st r spans st' ->
  current_step (context st) = k ->
  current_step (context st') = k + Z.of_nat (List.length (Trace.cycle_numbers spans)).
Proof.
  induction 1 as [k st Hk | k st r evs0 st1 Hk HC | k st evs0 st1 r spans st2 Hk HC HL IH];
    intros Hstep.
  - cbn. lia.
  - destruct (cycle_run_context _ _ _ _ _ HC) as [(_ & ->) | (res & _ & _ & Hf)];
      [| discriminate Hf].
    change (Trace.cycle_numbers [Cycle (k + 1) evs0]) with [k + 1].
    cbn [List.length enter_cycle context set_current_step current_step]. lia.
  - rewrite IH.
    + change (Trace.cycle_numbers (Cycle (k + 1) evs0 :: spans))
        with ((k + 1) :: Trace.cycle_numbers spans).
      cbn [List.length]. lia.
    + destruct (cycle_run_context _ _ _ _ _ HC) as [(_ & ->) | (res & _ & -> & _)];
        reflexivity.
Qed.
End StateFacts.

(** X3. Through a whole run the context keeps the input it was given and an
    empty list of thoughts (nothing is ever appended to it).  The context
    of cycle [n], and the one sent with its reasoning and decision
    requests, has the step counter [n]; every decision request lists
    exactly the registered tool names. *)
Theorem context_keeps_input_and_no_thoughts :
  forall (W : Type) (opper : Opper W) (self : AgentRunnerService W)
         (agent_id : string) (agent input_data : PyDict) (w : W),
  exists out,
    run_agent opper self agent_id agent input_data w = Some out
    /\ input (context (final out)) = input_data
    /\ thoughts (context (final out)) = []
    /\ forall n evs,
         In (Cycle n evs) (trace out) ->
         (forall c, In (CycleInput c) evs ->
            input c = input_data /\ thoughts c = [] /\ current_step c = n)
         /\ (forall req reply, In (ReasoningCall req reply) evs ->
               input (ri_context req) = input_data /\ thoughts (ri_context req) = []
               /\ ri_step_number req = n
               /\ ri_last_observation req = last_observation (ri_context req))
         /\ (forall req reply, In (ActionCall req reply) evs ->
               input (ai_context req) = input_data /\ thoughts (ai_context req) = []
               /\ ai_step_number req = n
               /\ ai_available_tools req = Dict.keys (tools self)).
Proof.
  intros W opper self agent_id agent input_data w.
  destruct (run_agent_run opper self agent agent_id input_data w)
    as (out & root & spans & Hrun & Htrace & Hloop).
  exists out. split; [assumption |].
  destruct (loop_run_invariant opper self agent
              (fun c => input c = input_data /\ thoughts c = [])
              ltac:(intros c n H; exact H) ltac:(intros c n r H; exact H)
              _ _ _ _ _ Hloop ltac:(split; reflexivity))
    as ((Hin & Hth) & Hall).
  split; [assumption |]. split; [assumption |].
  intros n evs Hc. rewrite Htrace in Hc. destruct Hc as [Hc | Hc]; [discriminate Hc |].
  destruct (Hall _ _ Hc) as (st_n & f & st_n' & (Hi & Ht) & Hstep & HC).
  split; [| split].
  - intros c Hev. inversion HC; subst; find_event Hev; auto.
  - intros req reply Hev. inversion HC; subst; find_event Hev; cbn; auto.
  - intros req reply Hev. inversion HC; subst; find_event Hev; cbn; auto.
Qed.

(** X3 on a run of two cycles. *)
Lemma context_keeps_input_and_no_thoughts_witness :
  exists out,
    run_agent (Fake.steady 0.5 (Fake.use_tool "fetch" Fake.pr_params))
      (Fake.runner "fetch" Fake.echo 2)
      "github_pr_reviewer" Fake.the_agent Fake.pr_params 0%nat = Some out
    /\ input (context (final out)) = Fake.pr_params
    /\ thoughts (context (final out)) = []
    /\ current_step (context (final out)) = 2.
Proof.
  destruct (context_keeps_input_and_no_thoughts nat
              (Fake.steady 0.5 (Fake.use_tool "fetch" Fake.pr_params))
              (Fake.runner "fetch" Fake.echo 2)
              "github_pr_reviewer" Fake.the_agent Fake.pr_params 0%nat)
    as (out & Hrun & Hin & Hth & _).
  compute_run Hrun Hval. exists out.
  split; [exact Hrun |]. split; [exact Hin |]. split; [exact Hth |].
  subst out. reflexivity.
Defined.

(** X4. When a run ends, [intermediate_results] holds one entry [step_n]
    for each cycle [n] whose tool returned, in the order of the cycles and
    with that tool's result (no entry is overwritten, so each result is
    found under its key); [last_observation] is the text of the last such
    result, absent when no tool returned; and [current_step] is the number
    of cycles made. *)
Theorem final_state_holds_tool_results :
  forall (W : Type) (opper : Opper W) (self : AgentRunnerService W)
         (agent_id : string) (agent input_data : PyDict) (w : W),
  exists out,
    run_agent opper self agent_id agent input_data w = Some out
    /\ intermediate_results (context (final out))
       = map Observed.entry (Observed.observations (trace out))
    /\ last_observation (context (final out))
       = List.last (map (fun o => Some (PyValue.str (snd o)))
                      (Observed.observations (trace out))) None
    /\ (forall n res,
          In (n, res) (Observed.observations (trace out)) ->
          Dict.get (intermediate_results (context (final out))) (step_key n) = Some res)
    /\ current_step (context (final out))
       = Z.of_nat (List.length (Trace.cycle_numbers (trace out))).
Proof.
  intros W opper self agent_id agent input_data w.
  destruct (run_agent_run opper self agent agent_id input_data w)
    as (out & root & spans & Hrun & Htrace & Hloop).
  exists out. split; [assumption |].
  destruct (loop_run_state opper self agent _ _ _ _ _ Hloop ltac:(reflexivity))
    as (Hir & Hlo & Hget).
  pose proof (loop_run_counter opper self agent _ _ _ _ _ Hloop eq_refl) as Hcount.
  rewrite Htrace.
  change (Observed.observations (RootInput root :: spans)) with (Observed.observations spans).
  change (Trace.cycle_numbers (RootInput root :: spans)) with (Trace.cycle_numbers spans).
  auto.
Qed.

(** X4 on a run of two cycles, each with a tool that returns. *)
Lemma final_state_holds_tool_results_witness :
  exists out,
    run_agent (Fake.steady 0.5 (Fake.use_tool "fetch" Fake.pr_params))
      (Fake.runner "fetch" Fake.echo 2)
      "github_pr_reviewer" Fake.the_agent Fake.pr_params 0%nat = Some out
    /\ Observed.observations (trace out) = [(1, PDict Fake.pr_params); (2, PDict Fake.pr_params)]
    /\ intermediate_results (context (final out))
       = [("step_1", PDict Fake.pr_params); ("step_2", PDict Fake.pr_params)]
    /\ Dict.get (intermediate_results (context (final out))) "step_2"
       = Some (PDict Fake.pr_params)
    /\ current_step (context (final out)) = 2.
Proof.
  destruct (final_state_holds_tool_results nat
              (Fake.steady 0.5 (Fake.use_tool "fetch" Fake.pr_params))
              (Fake.runner "fetch" Fake.echo 2)
              "github_pr_reviewer" Fake.the_agent Fake.pr_params 0%nat)
    as (out & Hrun & Hir & _ & Hget & Hcount).
  compute_run Hrun Hval. exists out.
  assert (Hobs : Observed.observations (trace out)
                 = [(1, PDict Fake.pr_params); (2, PDict Fake.pr_params)])
    by (subst out; reflexivity).
  split; [exact Hrun |]. split; [exact Hobs |].
  split; [rewrite Hir, Hobs; reflexivity |].
  split; [apply (Hget 2); rewrite Hobs; right; left; reflexivity |].
  rewrite Hcount. subst out. reflexivity.
Defined.

Section FlowFacts.
Context {W : Type}.
Variable opper : Opper W.
Variable self : AgentRunnerService W.
Variable agent : PyDict.


(** What comes after a cycle that went on: the end of the budget, or the
    next cycle, which sends its reasoning request with the context the
    cycle left and the counter moved. *)
Lemma loop_run_next n st r post st_end :
  LoopRun opper self agent n st r post st_end ->
  (max_steps self <= n
   /\ post = [RootOutputAfterLoop (max_steps_error (max_steps self))])
  \/ (exists reply rest post',
        post = Cycle (n + 1)
                 (CycleInput (set_current_step (context st) (n + 1))
                  :: ReasoningCall
                       (reasoning_input agent (set_current_step (context st) (n + 1))) reply
                  :: rest) :: post').
Proof.
  destruct 1 as [k st Hk | k st r evs0 st1 Hk HC | k st evs0 st1 r spans st2 Hk HC HL].
  - left. auto.
  - right. inversion HC; subst; unfold cycle_prefix; cbn; eauto.
  - right. inversion HC; subst; unfold cycle_prefix; cbn; eauto.
Qed.
End FlowFacts.

(** ** What a run does and does not do *)

(** X5. A tool is called only as the decision of its cycle asked: every
    tool call of a run is to a registered name that the ["use_tool"]
    decision of the same cycle named, with that decision's parameters after
    the pass over their models (no parameters when the decision has none),
    and it is the only tool call of the cycle. *)
Theorem tool_called_only_as_decided :
  forall (W : Type) (opper : Opper W) (self : AgentRunnerService W)
         (agent_id : string) (agent input_data : PyDict) (w : W),
  exists out,
    run_agent opper self agent_id agent input_data w = Some out
    /\ forall n evs name params reply,
         In (Cycle n evs) (trace out) ->
         In (ToolCall name params reply) evs ->
         (exists req action,
            In (ActionCall req (Ok action)) evs
            /\ action_type action = "use_tool"
            /\ tool_name action = Some name
            /\ params = dump_models (PyValue.or_empty (tool_params action)))
         /\ Dict.has (tools self) name = true
         /\ List.length (Trace.tool_replies [Cycle n evs]) = 1%nat.
Proof.
  intros W opper self agent_id agent input_data w.
  destruct (run_agent_cycle_in opper self agent agent_id input_data w) as (out & Hrun & Hcyc).
  exists out. split; [assumption |].
  intros n evs name params reply Hin Hev.
  destruct (Hcyc _ _ Hin) as (pre & post & st_n & f & st_n' & Heq & Hn & Hmax & Hstep & HC & Hrest).
  inversion HC; subst; find_event Hev;
    match goal with
    | Hs : selected_tool ?a = Some _ |- _ => apply selected_tool_some in Hs as (Ht & Hnm & _)
    end;
    (split; [eexists _, _; split; [unfold cycle_prefix; cbn; do 3 right; left; reflexivity | auto]
            | split; [unfold Dict.has;
                      match goal with
                      | Hg : Dict.get (tools self) _ = Some _ |- _ => now rewrite Hg
                      end
                     | reflexivity]]).
Qed.

(** X5 on a run: the one tool call is the one decided. *)
Lemma tool_called_only_as_decided_witness :
  exists out evs,
    run_agent (Fake.steady 0.5 (Fake.use_tool "fetch" Fake.pr_params))
      (Fake.runner "fetch" Fake.echo 1)
      "github_pr_reviewer" Fake.the_agent Fake.pr_params 0%nat = Some out
    /\ In (Cycle 1 evs) (trace out)
    /\ In (ToolCall "fetch" Fake.pr_params (Ok (PDict Fake.pr_params))) evs
    /\ Dict.has (tools (Fake.runner (W:=nat) "fetch" Fake.echo 1)) "fetch" = true.
Proof.
  destruct (tool_called_only_as_decided nat
              (Fake.steady 0.5 (Fake.use_tool "fetch" Fake.pr_params))
              (Fake.runner "fetch" Fake.echo 1)
              "github_pr_reviewer" Fake.the_agent Fake.pr_params 0%nat)
    as (out & Hrun & H).
  compute_run Hrun Hval. exists out. eexists.
  assert (Hin : In (Cycle 1 (Trace.cycle_events (nth 1 (trace out) (RootInput []))))
                  (trace out)).
  { subst out. cbn. right. left. reflexivity. }
  assert (Hev : In (ToolCall "fetch" Fake.pr_params (Ok (PDict Fake.pr_params)))
                  (Trace.cycle_events (nth 1 (trace out) (RootInput [])))).
  { subst out. cbn. do 4 right. left. reflexivity. }
  split; [exact Hrun |]. split; [exact Hin |]. split; [exact Hev |].
  exact (proj1 (proj2 (H _ _ _ _ _ Hin Hev))).
Defined.

(** X6. A ["use_tool"] decision that names no tool ([tool_name] absent or
    empty) calls nothing and is no error: the cycle ends after the
    decision and the loop goes on from the same context. *)
Theorem use_tool_without_name_is_skipped :
  forall (W : Type) (opper : Opper W) (self : AgentRunnerService W)
         (agent_id : string) (agent input_data : PyDict) (w : W),
  exists out,
    run_agent opper self agent_id agent input_data w = Some out
    /\ forall pre n evs post req action,
         trace out = pre ++ Cycle n evs :: post ->
         In (ActionCall req (Ok action)) evs ->
         action_type action = "use_tool" ->
         tool_name action = None \/ tool_name action = Some "" ->
         exists ctx rreq rreply score,
           evs = [CycleInput ctx; ReasoningCall rreq rreply;
                  Metric "reasoning_confidence" score; ActionCall req (Ok action)]
           /\ Trace.goes_on self n ctx post out.
Proof.
  intros W opper self agent_id agent input_data w.
  destruct (run_agent_cycles opper self agent agent_id input_data w) as (out & Hrun & Hcyc).
  exists out. split; [assumption |].
  intros pre n evs post req action Heq Hev Htype Hname.
  assert (Hsel : selected_tool action = None).
  { unfold selected_tool. rewrite Htype. cbn. destruct Hname as [-> | ->]; reflexivity. }
  destruct (Hcyc _ _ _ _ Heq)
    as (root & cycles & st_n & f & st_n' & -> & Hn & Hmax & Hstep & HC & Hrest).
  inversion HC; subst; find_event Hev; try congruence.
  eexists _, _, _, _. split; [reflexivity |].
  apply (loop_run_goes_on opper self agent _ _ _ _ Hrest).
Qed.

(** X6 on a run: two decisions to use a tool with an empty name, then the
    budget. *)
Lemma use_tool_without_name_is_skipped_witness :
  exists out pre evs post req,
    run_agent (Fake.steady 0.5 (Fake.use_tool "" Fake.pr_params))
      (Fake.runner "fetch" Fake.echo 2)
      "github_pr_reviewer" Fake.the_agent Fake.pr_params 0%nat = Some out
    /\ trace out = pre ++ Cycle 1 evs :: post
    /\ In (ActionCall req (Ok (Fake.use_tool "" Fake.pr_params))) evs
    /\ Trace.tool_replies (trace out) = []
    /\ exists ctx, Trace.goes_on (Fake.runner (W:=nat) "fetch" Fake.echo 2) 1 ctx post out.
Proof.
  destruct (use_tool_without_name_is_skipped nat
              (Fake.steady 0.5 (Fake.use_tool "" Fake.pr_params))
              (Fake.runner "fetch" Fake.echo 2)
              "github_pr_reviewer" Fake.the_agent Fake.pr_params 0%nat)
    as (out & Hrun & H).
  compute_run Hrun Hval. exists out.
  exists [nth 0 (trace out) (RootInput [])],
         (Trace.cycle_events (nth 1 (trace out) (RootInput []))),
         (skipn 2 (trace out)).
  eexists.
  assert (Heq : trace out
                = [nth 0 (trace out) (RootInput [])]
                  ++ Cycle 1 (Trace.cycle_events (nth 1 (trace out) (RootInput [])))
                       :: skipn 2 (trace out)).
  { subst out. reflexivity. }
  assert (Hev : In (nth 3 (Trace.cycle_events (nth 1 (trace out) (RootInput [])))
                      (CycleOutput PNone))
                  (Trace.cycle_events (nth 1 (trace out) (RootInput [])))).
  { subst out. cbn. do 3 right. left. reflexivity. }
  rewrite Hval in Hev at 1. cbn [trace nth Trace.cycle_events] in Hev.
  split; [exact Hrun |]. split; [exact Heq |]. split; [exact Hev |].
  split; [subst out; reflexivity |].
  destruct (H _ _ _ _ _ _ Heq Hev eq_refl (or_intror eq_refl)) as (ctx & _ & _ & _ & _ & Hgo).
  exists ctx. exact Hgo.
Defined.

(** X7. With a step budget of zero or less the loop is not entered: no
    oracle and no tool is called, the world and the fresh context are left
    as they are, and the run returns the step-budget error at once. *)
Theorem no_budget_no_cycle :
  forall (W : Type) (opper : Opper W) (self : AgentRunnerService W)
         (agent_id : string) (agent input_data : PyDict) (w : W),
    max_steps self <= 0 ->
    exists out root,
      run_agent opper self agent_id agent input_data w = Some out
      /\ result out = Returned (max_steps_error (max_steps self))
      /\ trace out = [RootInput root; RootOutputAfterLoop (max_steps_error (max_steps self))]
      /\ final out = initial_store input_data w.
Proof.
  intros W opper self agent_id agent input_data w Hmax.
  destruct (run_agent_run opper self agent agent_id input_data w)
    as (out & root & spans & Hrun & Htrace & Hloop).
  exists out, root. split; [assumption |].
  destruct (loop_run_head opper self agent _ _ _ _ _ Hloop)
    as [(_ & Hspans & Hres & Hfin) | (Hlt & _)]; [| lia].
  rewrite Htrace, Hspans. auto.
Qed.

(** X7 on a controller with the budget [0]. *)
Lemma no_budget_no_cycle_witness :
  exists out,
    run_agent (Fake.steady 0.5 (Fake.finish (Some Fake.the_review)))
      (Fake.runner "fetch" Fake.echo 0)
      "github_pr_reviewer" Fake.the_agent Fake.pr_params 0%nat = Some out
    /\ result out = Returned [("error", PStr "Reached maximum number of steps (0)")]
    /\ world (final out) = 0%nat.
Proof.
  destruct (no_budget_no_cycle nat
              (Fake.steady 0.5 (Fake.finish (Some Fake.the_review)))
              (Fake.runner "fetch" Fake.echo 0)
              "github_pr_reviewer" Fake.the_agent Fake.pr_params 0%nat)
    as (out & root & Hrun & Hres & _ & Hfin); [cbn; lia |].
  exists out. split; [exact Hrun |]. split; [exact Hres |]. now rewrite Hfin.
Defined.



(** X9. The result a tool returns in cycle [n] is what the next cycle
    reasons on: unless the budget ends the run there, cycle [n + 1] follows,
    and its reasoning request carries the step number [n + 1], the text of
    the result as the last observation, and the result itself under
    [step_n] in the context. *)
Theorem observation_reaches_next_cycle :
  forall (W : Type) (opper : Opper W) (self : AgentRunnerService W)
         (agent_id : string) (agent input_data : PyDict) (w : W),
  exists out,
    run_agent opper self agent_id agent input_data w = Some out
    /\ forall pre n evs post name params res,
         trace out = pre ++ Cycle n evs :: post ->
         In (ToolCall name params (Ok res)) evs ->
         (n = max_steps self
          /\ post = [RootOutputAfterLoop (max_steps_error (max_steps self))])
         \/ (exists req reply rest post',
               post = Cycle (n + 1) (CycleInput (ri_context req)
                                     :: ReasoningCall req reply :: rest) :: post'
               /\ ri_step_number req = n + 1
               /\ ri_last_observation req = Some (PyValue.str res)
               /\ Dict.get (intermediate_results (ri_context req)) (step_key n)
                  = Some res).
Proof.
  intros W opper self agent_id agent input_data w.
  destruct (run_agent_cycles opper self agent agent_id input_data w) as (out & Hrun & Hcyc).
  exists out. split; [assumption |].
  intros pre n evs post name params res Heq Hev.
  destruct (Hcyc _ _ _ _ Heq)
    as (root & cycles & st_n & f & st_n' & -> & Hn & Hmax & Hstep & HC & Hrest).
  inversion HC; subst; find_event Hev.
  destruct (loop_run_next opper self agent _ _ _ _ _ Hrest)
    as [(Hend & ->) | (reply0 & rest & post' & ->)].
  - left. split; [lia | reflexivity].
  - right.
    match goal with
    | |- context [ReasoningCall ?r reply0] => exists r, reply0, rest, post'
    end.
    split; [reflexivity |]. split; [reflexivity |]. split; [reflexivity |].
    unfold reasoning_input, record_observation.
    cbn [ri_context intermediate_results set_current_step set_intermediate_result
         set_last_observation context].
    apply dict_get_set_same.
Qed.

(** X9 on a run of two cycles. *)
Lemma observation_reaches_next_cycle_witness :
  exists out pre evs post req reply rest post',
    run_agent (Fake.steady 0.5 (Fake.use_tool "fetch" Fake.pr_params))
      (Fake.runner "fetch" Fake.echo 2)
      "github_pr_reviewer" Fake.the_agent Fake.pr_params 0%nat = Some out
    /\ trace out = pre ++ Cycle 1 evs :: post
    /\ In (ToolCall "fetch" Fake.pr_params (Ok (PDict Fake.pr_params))) evs
    /\ post = Cycle 2 (CycleInput (ri_context req) :: ReasoningCall req reply :: rest) :: post'
    /\ ri_last_observation req = Some (PyValue.str (PDict Fake.pr_params)).
Proof.
  destruct (observation_reaches_next_cycle nat
              (Fake.steady 0.5 (Fake.use_tool "fetch" Fake.pr_params))
              (Fake.runner "fetch" Fake.echo 2)
              "github_pr_reviewer" Fake.the_agent Fake.pr_params 0%nat)
    as (out & Hrun & H).
  compute_run Hrun Hval. exists out.
  exists [nth 0 (trace out) (RootInput [])],
         (Trace.cycle_events (nth 1 (trace out) (RootInput []))),
         (skipn 2 (trace out)).
  assert (Heq : trace out
                = [nth 0 (trace out) (RootInput [])]
                  ++ Cycle 1 (Trace.cycle_events (nth 1 (trace out) (RootInput [])))
                       :: skipn 2 (trace out)).
  { subst out. reflexivity. }
  assert (Hev : In (ToolCall "fetch" Fake.pr_params (Ok (PDict Fake.pr_params)))
                  (Trace.cycle_events (nth 1 (trace out) (RootInput [])))).
  { subst out. cbn. do 4 right. left. reflexivity. }
  destruct (H _ _ _ _ _ _ _ Heq Hev)
    as [(Hn & _) | (req & reply & rest & post' & Hpost & _ & Hobs & _)];
    [discriminate Hn |].
  exists req, reply, rest, post'. auto.
Defined.

(** ** The GitHub tool *)







Section RequestFacts.
Context {W : Type}.
Variable gh : GitHub.GitHubPRTool.
Variable http : GitHub.Http W.

Import GitHub.

Lemma bind_run {V A B : Type} (m : ToolM.T (W:=V) A) (k : A -> ToolM.T (W:=V) B) (v : V) :
  ToolM.bind m k v = match m v with
                     | (Ok a, v') => k a v'
                     | (Raised e, v') => (Raised e, v')
                     end.
Proof. reflexivity. Qed.

(** The three arguments of the helpers, when the parameters are there. *)
Lemma pr_arguments_present {V : Type} (params : PyDict) (owner repo pr_number : PyVal) (v : V) :
  Dict.get params "owner" = Some owner ->
  Dict.get params "repo" = Some repo ->
  Dict.get params "pr_number" = Some pr_number ->
  pr_arguments params v = (Ok (owner, repo, pr_number), v).
Proof.
  intros Ho Hr Hn.
  cbv [pr_arguments ToolM.bind ToolM.lift ToolM.ret PyOps.subscript].
  now rewrite Ho, Hr, Hn.
Qed.

(** Building the result touches no world. *)
Lemma build_result_pure {V : Type} (pr_info files : PyVal) (diff : string) (v : V) :
  exists r, build_result pr_info files diff v = (r, v).
Proof.
  cbv [build_result ToolM.bind ToolM.lift ToolM.ret].
  repeat tool_step; eauto.
Qed.

Lemma logged_get_json (u : string) (h : list (string * string)) (w : W)
    (log : list Probe.Request) :
  get_json (Probe.logged http) u h (w, log)
  = (fst (get_json http u h w),
     (snd (get_json http u h w),
      log ++ [{| Probe.url := u; Probe.sent := h; Probe.as_text := false |}])).
Proof. cbn. destruct (get_json http u h w); reflexivity. Qed.

Lemma logged_get_text (u : string) (h : list (string * string)) (w : W)
    (log : list Probe.Request) :
  get_text (Probe.logged http) u h (w, log)
  = (fst (get_text http u h w),
     (snd (get_text http u h w),
      log ++ [{| Probe.url := u; Probe.sent := h; Probe.as_text := true |}])).
Proof. cbn. destruct (get_text http u h w); reflexivity. Qed.

(** The requests of the [try] block: the first one, two or three of the
    expected ones; fewer than three only when it raises or returns an
    error mapping. *)
Lemma execute_try_requests (params : PyDict) (w : W) (log : list Probe.Request)
    (owner repo pr_number : PyVal) :
  Dict.get params "owner" = Some owner ->
  Dict.get params "repo" = Some repo ->
  Dict.get params "pr_number" = Some pr_number ->
  exists r w' k,
    execute_try gh (Probe.logged http) params (w, log)
    = (r, (w', log ++ firstn k (Probe.expected gh owner repo pr_number)))
    /\ (1 <= k <= 3)%nat
    /\ ((k < 3)%nat -> (exists e, r = Raised e) \/ (exists msg, r = Ok (error_result msg))).
Proof.
  intros Ho Hr Hn.
  unfold execute_try.
  assert (Hmiss : filter (fun param => negb (Dict.has params param)) required_params = []).
  { cbv [required_params filter Dict.has]. now rewrite Ho, Hr, Hn. }
  rewrite Hmiss.
  rewrite bind_run, (pr_arguments_present params owner repo pr_number _ Ho Hr Hn).
  cbv beta iota.
  rewrite bind_run. unfold _get_pr_info. rewrite logged_get_json.
  destruct (get_json http (pull_url gh owner repo pr_number) (headers gh) w)
    as [[pr_info | e] w1]; cbn [fst snd].
  2: { eexists _, _, 1%nat. split; [reflexivity |]. split; [lia | eauto]. }
  rewrite bind_run. unfold ToolM.lift at 1.
  destruct (PyOps.get_method pr_info "private" (PBool false)) as [private | e].
  2: { eexists _, _, 1%nat. split; [reflexivity |]. split; [lia | eauto]. }
  destruct (PyValue.truthy private && negb (Dict.has (headers gh) "Authorization"))%bool.
  { eexists _, _, 1%nat. split; [reflexivity |]. split; [lia | eauto]. }
  rewrite bind_run, (pr_arguments_present params owner repo pr_number _ Ho Hr Hn).
  cbv beta iota.
  rewrite bind_run. unfold _get_pr_files. rewrite logged_get_json.
  destruct (get_json http (pull_url gh owner repo pr_number +++ "/files") (headers gh) w1)
    as [[files | e] w2]; cbn [fst snd].
  2: { eexists _, _, 2%nat. rewrite <- app_assoc. split; [reflexivity |]. split; [lia | eauto]. }
  rewrite bind_run, (pr_arguments_present params owner repo pr_number _ Ho Hr Hn).
  cbv beta iota.
  rewrite bind_run. unfold _get_pr_diff. cbv zeta. rewrite logged_get_text.
  destruct (get_text http (pull_url gh owner repo pr_number)
              (Dict.set (headers gh) "Accept" "application/vnd.github.v3.diff") w2)
    as [[diff | e] w3]; cbn [fst snd].
  2: { eexists _, _, 3%nat. rewrite <- !app_assoc. split; [reflexivity |]. split; lia. }
  destruct (build_result_pure pr_info files diff
              (w3, ((log ++ [{| Probe.url := pull_url gh owner repo pr_number;
                                Probe.sent := headers gh; Probe.as_text := false |}])
                    ++ [{| Probe.url := pull_url gh owner repo pr_number +++ "/files";
                           Probe.sent := headers gh; Probe.as_text := false |}])
                   ++ [{| Probe.url := pull_url gh owner repo pr_number;
                          Probe.sent := Dict.set (headers gh) "Accept"
                                          "application/vnd.github.v3.diff";
                          Probe.as_text := true |}]))
    as (r & Hbuild).
  rewrite Hbuild. eexists r, w3, 3%nat. rewrite <- !app_assoc.
  split; [reflexivity |]. split; lia.
Qed.
End RequestFacts.

(** X11. With its three parameters given, [execute] makes its requests in
    a fixed order and stops at the first that fails or that ends the work:
    the requests made are the first one, two or three of the pull request,
    its files and its diff, each to the URL of that pull request under
    [base_url] and with the tool's headers (the diff with its own [Accept]),
    and all three whenever the result says [success].  With a parameter
    missing it makes no request. *)
Theorem execute_requests_in_order :
  forall (W : Type) (gh : GitHub.GitHubPRTool) (http : GitHub.Http W)
         (params : PyDict) (w : W) (log : list Probe.Request),
    (forall p, In p GitHub.required_params -> Dict.has params p = false ->
       exists msg,
         GitHub.execute gh (Probe.logged http) params (w, log)
         = (Ok (GitHub.error_result msg), (w, log)))
    /\ (forall owner repo pr_number,
          Dict.get params "owner" = Some owner ->
          Dict.get params "repo" = Some repo ->
          Dict.get params "pr_number" = Some pr_number ->
          exists r w' k,
            GitHub.execute gh (Probe.logged http) params (w, log)
            = (r, (w', log ++ firstn k (Probe.expected gh owner repo pr_number)))
            /\ (1 <= k <= 3)%nat
            /\ (forall d, r = Ok (PDict d) ->
                  Dict.get d "status" = Some (PStr "success") -> k = 3%nat)).
Proof.
  intros W gh http params w log. split.
  - intros p Hin Hhas. exact (execute_missing gh (Probe.logged http) params (w, log) p Hin Hhas).
  - intros owner repo pr_number Ho Hr Hn.
    destruct (execute_try_requests gh http params w log owner repo pr_number Ho Hr Hn)
      as (r & w' & k & Htry & Hk & Hfew).
    unfold GitHub.execute. rewrite Htry.
    destruct r as [v | [status text | cls text]].
    + eexists _, _, k. split; [reflexivity |]. split; [assumption |].
      intros d [= ->] Hs.
      destruct (Nat.eq_dec k 3) as [-> | Hne]; [reflexivity |].
      destruct Hfew as [(e & He) | (msg & Hmsg)]; [lia | discriminate He |].
      injection Hmsg as ->. cbn in Hs. discriminate Hs.
    + eexists _, _, k. split; [reflexivity |]. split; [assumption |].
      intros d [= <-] Hs. cbn in Hs. discriminate Hs.
    + eexists _, _, k. split; [reflexivity |]. split; [assumption |].
      intros d [= <-] Hs. cbn in Hs. discriminate Hs.
Qed.

(** X11 on a pull request that is served: three requests, in order. *)
Lemma execute_requests_in_order_witness :
  exists r d,
    GitHub.execute (GitHub.GitHubPRTool_init None) (Probe.logged (Sample.serves false))
      Fake.pr_params (tt, [])
    = (r, (tt, Probe.expected (GitHub.GitHubPRTool_init None)
                 (PStr "opper-ai") (PStr "blog-examples") (PInt 7)))
    /\ r = Ok (PDict d)
    /\ Dict.get d "status" = Some (PStr "success").
Proof.
  destruct (execute_requests_in_order unit (GitHub.GitHubPRTool_init None)
              (Sample.serves false) Fake.pr_params tt []) as (_ & H).
  destruct (H (PStr "opper-ai") (PStr "blog-examples") (PInt 7) eq_refl eq_refl eq_refl)
    as (r & w' & k & He & _ & Hs).
  pose proof He as Hval. vm_compute in Hval.
  injection Hval as Hr Hw _. destruct w'.
  exists r. eexists. rewrite He.
  split; [| split; [symmetry; exact Hr | reflexivity]].
  rewrite (Hs _ (eq_sym Hr) eq_refl). reflexivity.
Defined.

Section TryFacts.
Context {W : Type}.
Variable gh : GitHub.GitHubPRTool.
Variable http : GitHub.Http W.

Import GitHub.


End TryFacts.




Lemma in_firstn {A : Type} (k : nat) (l : list A) (x : A) : In x (firstn k l) -> In x l.
Proof.
  revert l. induction k as [| k IH]; intros [| y l]; cbn; try contradiction.
  intros [-> | H]; [left; reflexivity | right; exact (IH _ H)].
Qed.

Section LoggedFacts.
Context {W : Type}.
Variable gh : GitHub.GitHubPRTool.
Variable http : GitHub.Http W.

(** The handlers of [execute] make no request of their own. *)
Lemma execute_logged (params : PyDict) (w : W) (log : list Probe.Request)
    (owner repo pr_number : PyVal) :
  Dict.get params "owner" = Some owner ->
  Dict.get params "repo" = Some repo ->
  Dict.get params "pr_number" = Some pr_number ->
  exists r w' k,
    GitHub.execute gh (Probe.logged http) params (w, log)
    = (r, (w', log ++ firstn k (Probe.expected gh owner repo pr_number))).
Proof.
  intros Ho Hr Hn.
  destruct (execute_try_requests gh http params w log owner repo pr_number Ho Hr Hn)
    as (r & w' & k & Htry & _).
  unfold GitHub.execute. rewrite Htry.
  destruct r as [v | [status text | cls text]]; eexists _, _, k; reflexivity.
Qed.

(** A parameter is missing, or the three are there. *)
Lemma params_missing_or_present (params : PyDict) :
  (exists p, In p GitHub.required_params /\ Dict.has params p = false)
  \/ (exists owner repo pr_number,
        Dict.get params "owner" = Some owner
        /\ Dict.get params "repo" = Some repo
        /\ Dict.get params "pr_number" = Some pr_number).
Proof.
  unfold GitHub.required_params, Dict.has.
  destruct (Dict.get params "owner") as [owner |] eqn:Ho.
  2: { left. exists "owner". rewrite Ho. split; [left; reflexivity | reflexivity]. }
  destruct (Dict.get params "repo") as [repo |] eqn:Hr.
  2: { left. exists "repo". rewrite Hr. split; [right; left; reflexivity | reflexivity]. }
  destruct (Dict.get params "pr_number") as [pr_number |] eqn:Hn.
  2: { left. exists "pr_number". rewrite Hn.
       split; [right; right; left; reflexivity | reflexivity]. }
  right. exists owner, repo, pr_number. repeat split; first [reflexivity | assumption].
Qed.
End LoggedFacts.

(** X13. Whatever the parameters and the answers, every request of a tool
    made by [GitHubPRTool(github_token)] goes to a URL under
    [https://api.github.com/repos/], with the headers [__init__] set and
    no other: the [Authorization] header [token <github_token>] when a
    token that is not empty was given, none otherwise, also on the request
    for the diff, which differs only by its [Accept] header. *)
Theorem requests_carry_the_token :
  forall (W : Type) (github_token : option string) (http : GitHub.Http W)
         (params : PyDict) (w : W) (log : list Probe.Request),
  exists r w' requests,
    GitHub.execute (GitHub.GitHubPRTool_init github_token) (Probe.logged http) params (w, log)
    = (r, (w', log ++ requests))
    /\ forall request, In request requests ->
         prefix "https://api.github.com/repos/" (Probe.url request) = true
         /\ Dict.keys (Probe.sent request)
            = Dict.keys (GitHub.headers (GitHub.GitHubPRTool_init github_token))
         /\ Dict.get (Probe.sent request) "Accept"
            = Some (if Probe.as_text request then "application/vnd.github.v3.diff"
                    else "application/vnd.github.v3+json")
         /\ Dict.get (Probe.sent request) "Authorization"
            = match github_token with
              | Some token => if String.eqb token "" then None else Some ("token " +++ token)
              | None => None
              end.
Proof.
  intros W github_token http params w log.
  destruct (params_missing_or_present params)
    as [(p & Hin & Hhas) | (owner & repo & pr_number & Ho & Hr & Hn)].
  - destruct (execute_missing (GitHub.GitHubPRTool_init github_token) (Probe.logged http)
                params (w, log) p Hin Hhas) as (msg & Hex).
    eexists _, w, []. rewrite app_nil_r. split; [exact Hex |]. intros request [].
  - destruct (execute_logged (GitHub.GitHubPRTool_init github_token) http params w log
                owner repo pr_number Ho Hr Hn) as (r & w' & k & Hex).
    eexists r, w', _. split; [exact Hex |].
    intros request Hin. apply in_firstn in Hin.
    assert (Hurl : forall rest,
               prefix "https://api.github.com/repos/"
                 (GitHub.base_url (GitHub.GitHubPRTool_init github_token)
                    +++ "/repos/" +++ rest) = true).
    { intros rest.
      change (prefix "https://api.github.com/repos/"
                ("https://api.github.com/repos/" +++ rest) = true).
      apply prefix_append, prefix_refl. }
    unfold Probe.expected, GitHub.pull_url in Hin.
    destruct Hin as [<- | [<- | [<- | []]]]; cbn [Probe.url Probe.sent Probe.as_text];
      (split; [apply Hurl |]);
      destruct github_token as [token |]; cbn; try destruct (String.eqb token ""); cbn;
      repeat split; reflexivity.
Qed.

(** X13 on a private repository read with a token: the request for the
    diff carries the token. *)
Lemma requests_carry_the_token_witness :
  exists r requests request,
    GitHub.execute (GitHub.GitHubPRTool_init (Some "ghp_0123")) (Probe.logged (Sample.serves true))
      Fake.pr_params (tt, [])
    = (r, (tt, requests))
    /\ nth_error requests 2 = Some request
    /\ Probe.as_text request = true
    /\ Dict.get (Probe.sent request) "Authorization" = Some "token ghp_0123"
    /\ Dict.get (Probe.sent request) "Accept" = Some "application/vnd.github.v3.diff".
Proof.
  destruct (requests_carry_the_token unit (Some "ghp_0123") (Sample.serves true)
              Fake.pr_params tt []) as (r & w' & requests & Hex & H).
  pose proof Hex as Hval. vm_compute in Hval. injection Hval as Hr Hw Hreq. destruct w'.
  cbn [app] in Hex.
  assert (Hnth : nth_error requests 2
                 = Some (nth 2 requests
                           {| Probe.url := "x"; Probe.sent := []; Probe.as_text := false |})).
  { rewrite <- Hreq. reflexivity. }
  exists r, requests. eexists. split; [exact Hex |]. split; [exact Hnth |].
  destruct (H _ (nth_error_In _ _ Hnth)) as (_ & _ & Hacc & Hauth).
  assert (Htext : Probe.as_text
                    (nth 2 requests
                       {| Probe.url := "x"; Probe.sent := []; Probe.as_text := false |})
                  = true).
  { rewrite <- Hreq. reflexivity. }
  split; [exact Htext |]. split; [exact Hauth |].
  rewrite Htext in Hacc. exact Hacc.
Defined.

(** X14. When the first request fails with an HTTP status, [execute] makes
    no other request and returns the error mapping whose text depends on
    the status: for 404 the pull request named from the parameters as
    [owner/repo#pr_number], for 403 with [rate limit exceeded] in the text
    of the exception (in any case of letters) the advice to authenticate,
    and the text of the exception itself for any other. *)
Theorem http_error_on_first_request :
  forall (W : Type) (gh : GitHub.GitHubPRTool) (http : GitHub.Http W)
         (params : PyDict) (w : W) (log : list Probe.Request)
         (owner repo pr_number : PyVal) (status : Z) (text : string) (w1 : W),
    Dict.get params "owner" = Some owner ->
    Dict.get params "repo" = Some repo ->
    Dict.get params "pr_number" = Some pr_number ->
    GitHub.get_json http (GitHub.pull_url gh owner repo pr_number) (GitHub.headers gh) w
    = (Raised (ClientResponseError status text), w1) ->
    exists msg,
      GitHub.execute gh (Probe.logged http) params (w, log)
      = (Ok (GitHub.error_result msg),
         (w1, log ++ [{| Probe.url := GitHub.pull_url gh owner repo pr_number;
                         Probe.sent := GitHub.headers gh;
                         Probe.as_text := false |}]))
      /\ (status = 404 ->
          msg = "PR not found: " +++ PyValue.str owner +++ "/" +++ PyValue.str repo
                  +++ "#" +++ PyValue.str pr_number)
      /\ (status = 403 ->
          PyText.contains "rate limit exceeded" (PyText.lower text) = true ->
          msg = "GitHub API rate limit exceeded. Consider adding authentication for higher limits.")
      /\ (status <> 404 ->
          status <> 403 \/ PyText.contains "rate limit exceeded" (PyText.lower text) = false ->
          msg = text).
Proof.
  intros W gh http params w log owner repo pr_number status text w1 Ho Hr Hn Hget.
  unfold GitHub.execute, GitHub.execute_try.
  assert (Hmiss : filter (fun param => negb (Dict.has params param)) GitHub.required_params
                  = []).
  { cbv [GitHub.required_params filter Dict.has]. now rewrite Ho, Hr, Hn. }
  rewrite Hmiss.
  rewrite bind_run, (pr_arguments_present params owner repo pr_number _ Ho Hr Hn).
  cbv beta iota.
  rewrite bind_run. unfold GitHub._get_pr_info. rewrite logged_get_json, Hget.
  cbn [fst snd]. unfold GitHub.param_text. rewrite Ho, Hr, Hn.
  eexists. split; [reflexivity |].
  split; [| split].
  - intros ->. reflexivity.
  - intros -> Hc. rewrite Hc. reflexivity.
  - intros H404 H403.
    destruct (status =? 404) eqn:E4; [apply Z.eqb_eq in E4; contradiction |].
    destruct H403 as [H403 | Hc].
    + destruct (status =? 403) eqn:E3; [apply Z.eqb_eq in E3; contradiction | reflexivity].
    + rewrite Hc, Bool.andb_false_r. reflexivity.
Qed.

(** X14 on a pull request that is not there, and on a rate limit. *)
Lemma http_error_on_first_request_witness :
  (exists requests,
     GitHub.execute (GitHub.GitHubPRTool_init None)
       (Probe.logged (Sample.fails 404 "404, message='Not Found'")) Fake.pr_params (tt, [])
     = (Ok (GitHub.error_result "PR not found: opper-ai/blog-examples#7"), (tt, requests))
     /\ List.length requests = 1%nat)
  /\ (exists requests,
        GitHub.execute (GitHub.GitHubPRTool_init None)
          (Probe.logged (Sample.fails 403 "403, message='API Rate Limit Exceeded'"))
          Fake.pr_params (tt, [])
        = (Ok (GitHub.error_result
                 "GitHub API rate limit exceeded. Consider adding authentication for higher limits."),
           (tt, requests))
        /\ List.length requests = 1%nat).
Proof.
  split.
  - destruct (http_error_on_first_request unit (GitHub.GitHubPRTool_init None)
                (Sample.fails 404 "404, message='Not Found'") Fake.pr_params tt []
                (PStr "opper-ai") (PStr "blog-examples") (PInt 7)
                404 "404, message='Not Found'" tt eq_refl eq_refl eq_refl eq_refl)
      as (msg & Hex & H404 & _).
    rewrite (H404 eq_refl) in Hex.
    eexists. split; [exact Hex | reflexivity].
  - destruct (http_error_on_first_request unit (GitHub.GitHubPRTool_init None)
                (Sample.fails 403 "403, message='API Rate Limit Exceeded'") Fake.pr_params tt []
                (PStr "opper-ai") (PStr "blog-examples") (PInt 7)
                403 "403, message='API Rate Limit Exceeded'" tt
                eq_refl eq_refl eq_refl eq_refl)
      as (msg & Hex & _ & H403 & _).
    rewrite (H403 eq_refl eq_refl) in Hex.
    eexists. split; [exact Hex | reflexivity].
Defined.

(** ** [main.py]: the controller with the GitHub tool *)

Section EndFacts.
Context {W : Type}.
Variable opper : Opper W.
Variable self : AgentRunnerService W.
Variable agent : PyDict.


End EndFacts.



(** X16. What [main] prints for the mapping a run returned: when the
    mapping has an [error] field, the one line [Error: <that field>] and
    nothing of a review, which is the case of every error result the
    controller builds; otherwise the mapping is the output of a ["finish"]
    decision and the lines begin with the title and the summary
    ([No summary provided] when the field is not there). *)
Theorem main_prints_error_or_review :
  forall (W : Type) (opper : Opper W) (self : AgentRunnerService W)
         (agent_id : string) (agent input_data : PyDict) (w : W),
  exists out,
    run_agent opper self agent_id agent input_data w = Some out
    /\ forall d,
         result out = Returned d ->
         (Trace.controller_error self d -> Dict.has d "error" = true)
         /\ ((exists v,
                Dict.get d "error" = Some v
                /\ Main.print_result d = ["Error: " +++ PyValue.str v])
             \/ (Dict.has d "error" = false
                 /\ Trace.finished_with (trace out) d
                 /\ exists rest,
                      Main.print_result d
                      = (Main.newline +++ "=== PR Review Results ===")
                        :: (Main.newline +++ "Summary: "
                              +++ Main.field_text d "review_summary" "No summary provided")
                        :: rest)).
Proof.
  intros W opper self agent_id agent input_data w.
  destruct (run_agent_result opper self agent agent_id input_data w) as (out & Hrun & Hres & _).
  exists out. split; [exact Hrun |].
  intros d Hd. rewrite Hd in Hres.
  assert (Herr : Trace.controller_error self d -> Dict.has d "error" = true).
  { intros Hc. destruct (controller_error_shape self d Hc) as (msg & ->). reflexivity. }
  split; [exact Herr |].
  unfold Main.print_result.
  destruct (Dict.has d "error") eqn:Hhas.
  - left. unfold Dict.has in Hhas. unfold Main.field_text.
    destruct (Dict.get d "error") as [v |]; [| discriminate Hhas].
    exists v. split; reflexivity.
  - right. split; [reflexivity |]. split.
    + destruct Hres as [Hfin | Hc]; [exact Hfin |].
      apply Herr in Hc. discriminate Hc.
    + cbv zeta.
      destruct (Main.print_items d "issues_found" (Main.newline +++ "Issues Found:"))
        as [issues [[] | e]]; [| eexists; reflexivity].
      destruct (Main.print_items d "suggestions" (Main.newline +++ "Suggestions:"))
        as [suggestions [[] | e]]; eexists; reflexivity.
Qed.

(** X16 on two runs: the budget of one step is spent, and a ["finish"]
    gives no output. *)
Lemma main_prints_error_or_review_witness :
  (exists out d,
     run_agent (Fake.steady 0.5 (Fake.use_tool "fetch" Fake.pr_params))
       (Fake.runner "fetch" Fake.echo 1)
       "github_pr_reviewer" Fake.the_agent Fake.pr_params 0%nat = Some out
     /\ result out = Returned d
     /\ Main.print_result d = ["Error: Reached maximum number of steps (1)"])
  /\ (exists out d,
        run_agent (Fake.steady 0.5 (Fake.finish None))
          (Fake.runner "fetch" Fake.echo 1)
          "github_pr_reviewer" Fake.the_agent Fake.pr_params 0%nat = Some out
        /\ result out = Returned d
        /\ Trace.finished_with (trace out) d
        /\ Main.print_result d
           = [Main.newline +++ "=== PR Review Results ===";
              Main.newline +++ "Summary: No summary provided";
              Main.newline +++ "Overall Assessment: No assessment provided"]).
Proof.
  split.
  - destruct (main_prints_error_or_review nat
                (Fake.steady 0.5 (Fake.use_tool "fetch" Fake.pr_params))
                (Fake.runner "fetch" Fake.echo 1)
                "github_pr_reviewer" Fake.the_agent Fake.pr_params 0%nat)
      as (out & Hrun & H).
    compute_run Hrun Hval. exists out. eexists.
    assert (Hres : result out
                   = Returned [("error", PStr "Reached maximum number of steps (1)")])
      by (subst out; reflexivity).
    split; [exact Hrun |]. split; [exact Hres |].
    destruct (H _ Hres) as (_ & [(v & Hv & Hp) | (Hno & _)]); [| discriminate Hno].
    injection Hv as <-. exact Hp.
  - destruct (main_prints_error_or_review nat
                (Fake.steady 0.5 (Fake.finish None))
                (Fake.runner "fetch" Fake.echo 1)
                "github_pr_reviewer" Fake.the_agent Fake.pr_params 0%nat)
      as (out & Hrun & H).
    compute_run Hrun Hval. exists out. exists [].
    assert (Hres : result out = Returned []) by (subst out; reflexivity).
    split; [exact Hrun |]. split; [exact Hres |].
    destruct (H _ Hres) as (_ & [(v & Hv & _) | (_ & Hfin & _)]); [discriminate Hv |].
    split; [exact Hfin | reflexivity].
Defined.


